(** * Braintree / commercetools connector: update-action assembly

    A shallow embedding of
      - [src/utils/response.utils.ts]        (handleRequest, handleResponse,
                                               removeEmptyProperties, handleError)
      - [src/service/payment.service.ts]     (the five payment handlers)
      - [src/controllers/customer.controller.ts] (parseVaultRequest, update,
                                               customerController)
    and the properties of the returned update actions. *)

From Stdlib Require Import ZArith List String Ascii Bool Lia DecimalString.
Import ListNotations.
Open Scope string_scope.

Set Implicit Arguments.
Set Warnings "-register-all".

(* ================================================================== *)
(** ** JavaScript values *)
(* ================================================================== *)

(** Arrays are objects whose own keys are their indices, with their
    [length]; a hole left by [delete arr[i]] is a missing key, and [delete]
    leaves the length as it is. *)
Inductive object_class := PlainObject | ArrayObject (length : N).

(** The loosely typed payloads the handlers pass around.  An object is its
    list of own enumerable properties in the order [Object.keys] lists them,
    one entry per key.  The numbers of a payload are restricted to integers:
    the code performs arithmetic in one place only, on the amount planned
    (see [amount_string]), and there the doubles are modelled. *)
Inductive value :=
| VUndefined
| VNull
| VBool (b : bool)
| VNum (n : Z)
| VStr (s : string)
| VObj (cls : object_class) (props : list (string * value)).

(** [{ k1: v1, ... }] *)
Definition obj (props : list (string * value)) : value := VObj PlainObject props.

(** Structural induction that reaches the property values. *)
Section ValueInduction.
Variable P : value -> Prop.
Hypothesis Hundef : P VUndefined.
Hypothesis Hnull : P VNull.
Hypothesis Hbool : forall b, P (VBool b).
Hypothesis Hnum : forall n, P (VNum n).
Hypothesis Hstr : forall s, P (VStr s).
Hypothesis Hobj : forall cls props,
    Forall (fun kv => P (snd kv)) props -> P (VObj cls props).

Fixpoint value_props_ind (v : value) : P v :=
  match v with
  | VUndefined => Hundef
  | VNull => Hnull
  | VBool b => Hbool b
  | VNum n => Hnum n
  | VStr s => Hstr s
  | VObj cls props =>
      Hobj cls
        ((fix all (ps : list (string * value)) : Forall (fun kv => P (snd kv)) ps :=
            match ps with
            | [] => Forall_nil _
            | kv :: rest => Forall_cons kv (value_props_ind (snd kv)) (all rest)
            end) props)
  end.
End ValueInduction.

(** [!!v] *)
Definition truthy (v : value) : bool :=
  match v with
  | VUndefined | VNull => false
  | VBool b => b
  | VNum n => negb (n =? 0)%Z
  | VStr s => negb (s =? "")
  | VObj _ _ => true
  end.

(** [v === null || v === undefined], the test behind [??] and [?.] *)
Definition nullish (v : value) : bool :=
  match v with
  | VUndefined | VNull => true
  | _ => false
  end.

(** [typeof v === 'object'] (which holds of [null] too) *)
Definition typeof_object (v : value) : bool :=
  match v with
  | VNull | VObj _ _ => true
  | _ => false
  end.

(** [typeof v === 'string'] *)
Definition typeof_string (v : value) : bool :=
  match v with
  | VStr _ => true
  | _ => false
  end.

(** *** Property lists *)

Fixpoint assoc_get {A} (ps : list (string * A)) (k : string) : option A :=
  match ps with
  | [] => None
  | (k', x) :: rest => if k' =? k then Some x else assoc_get rest k
  end.

(** Assignment keeps the position of a key that exists and appends a new
    one: the keys the code assigns by name are no array indices. *)
Fixpoint assoc_set {A} (ps : list (string * A)) (k : string) (x : A) : list (string * A) :=
  match ps with
  | [] => [(k, x)]
  | (k', y) :: rest =>
      if k' =? k then (k, x) :: rest else (k', y) :: assoc_set rest k x
  end.

(** The characters of a string primitive, keyed by index from [i]. *)
Fixpoint index_props (i : nat) (s : string) : list (string * value) :=
  match s with
  | EmptyString => []
  | String c rest =>
      (NilZero.string_of_uint (Nat.to_uint i), VStr (String c EmptyString))
        :: index_props (S i) rest
  end.

(** The own enumerable properties, as object spread ([...v]) copies them. *)
Definition own_props (v : value) : list (string * value) :=
  match v with
  | VObj _ props => props
  | VStr s => index_props 0 s
  | _ => []
  end.

(** [v[k]] for a [v] that is neither [null] nor [undefined].  A primitive
    has its inherited properties, and a string its indices and length; the
    names the code reads are none of those. *)
Definition get (v : value) (k : string) : value :=
  match v with
  | VObj _ props =>
      match assoc_get props k with
      | Some x => x
      | None => VUndefined
      end
  | _ => VUndefined
  end.

(** [v?.k] *)
Definition opt_get (v : value) (k : string) : value :=
  if nullish v then VUndefined else get v k.

(** The number a key denotes when it is an array index: a canonical decimal
    numeral below 2^32 - 1.  An object lists such keys first, in ascending
    order, and its other keys after them in insertion order. *)
Fixpoint numeral_value (acc : N) (s : string) : option N :=
  match s with
  | EmptyString => Some acc
  | String c rest =>
      let d := N_of_ascii c in
      if ((48 <=? d) && (d <=? 57))%N
      then numeral_value (acc * 10 + (d - 48))%N rest
      else None
  end.

Definition array_index (k : string) : option N :=
  match k with
  | EmptyString => None
  | String c rest =>
      if (c =? "0")%char && negb (rest =? "") then None
      else match numeral_value 0 k with
           | Some n => if (n <? 4294967295)%N then Some n else None
           | None => None
           end
  end.

(** The place of a new index key [k], of number [i]: after the index keys
    below it. *)
Fixpoint insert_index {A} (ps : list (string * A)) (i : N) (k : string) (x : A)
  : list (string * A) :=
  match ps with
  | [] => [(k, x)]
  | (k', y) :: rest =>
      match array_index k' with
      | Some j => if (j <? i)%N then (k', y) :: insert_index rest i k x
                  else (k, x) :: ps
      | None => (k, x) :: ps
      end
  end.

(** Definition of the own property [k]: a key that exists keeps its place,
    a new index key goes among the index keys, any other new key last. *)
Definition define_own {A} (ps : list (string * A)) (k : string) (x : A)
  : list (string * A) :=
  match assoc_get ps k, array_index k with
  | None, Some i => insert_index ps i k x
  | _, _ => assoc_set ps k x
  end.

(** [{ ...base, ...v }]: every own property of [v] is defined in order. *)
Definition spread (base : list (string * value)) (v : value) : list (string * value) :=
  fold_left (fun acc kv => define_own acc (fst kv) (snd kv)) (own_props v) base.

(** [Object.keys(v).length === 0] *)
Definition Object_keys_empty (v : value) : bool :=
  match own_props v with
  | [] => true
  | _ :: _ => false
  end.

(* ================================================================== *)
(** ** response.utils.ts: removeEmptyProperties *)
(* ================================================================== *)

(** One turn of the [for (const prop in response)] loop, on the entry of
    [prop]: the entries the turn leaves behind (none when it deletes).
    [recur] is the recursive call. *)
Definition visit_property (recur : value -> value) (entry : string * value)
  : list (string * value) :=
  let (prop, v) := entry in
  match v with
  | VNull => []                               (* delete response[prop] *)
  | VObj _ _ =>                               (* typeof response[prop] === 'object' *)
      let v' := recur v in                    (* cleaned in place *)
      if Object_keys_empty v' then [] else [(prop, v')]
  | _ => [(prop, v)]
  end.

(** The function mutates its argument; the model returns the argument as the
    call leaves it.  [for ... in] over a primitive or [null] visits nothing
    that the body changes. *)
Fixpoint removeEmptyProperties (response : value) : value :=
  match response with
  | VObj cls props =>
      VObj cls (flat_map (visit_property removeEmptyProperties) props)
  | _ => response
  end.

(** [v] is an object (or array) without own keys. *)
Definition empty_object (v : value) : bool :=
  match v with
  | VObj _ [] => true
  | _ => false
  end.

Definition is_null (v : value) : bool :=
  match v with
  | VNull => true
  | _ => false
  end.

(** No property, at any depth, holds [null] or an object without own keys. *)
Fixpoint no_empty_properties (v : value) : bool :=
  match v with
  | VObj _ props =>
      forallb (fun kv =>
                 negb (is_null (snd kv)) && negb (empty_object (snd kv))
                 && no_empty_properties (snd kv)) props
  | _ => true
  end.

(* ================================================================== *)
(** ** Exceptions *)
(* ================================================================== *)

(** Modelled from the spec: the class [CustomError] of [errors/custom.error]
    is not among the sources; following the spec's "catching an exception and
    writing an error field" it is an [Error] that keeps the status code and
    the message it is constructed with.

    The type is what a [throw] carries.  [RuntimeError] stands for every
    [Error] that is not a [CustomError]: the engine's [SyntaxError] and
    [TypeError], and the errors the gateway SDK rejects with. *)
Inductive thrown :=
| CustomError (statusCode : Z) (message : string)
| RuntimeError (message : string)
| NonError (v : value).

(** [error instanceof Error] *)
Definition instanceof_Error (e : thrown) : bool :=
  match e with
  | CustomError _ _ | RuntimeError _ => true
  | NonError _ => false
  end.

(** A computation that returns or throws. *)
Inductive outcome (A : Type) :=
| Returned (a : A)
| Threw (e : thrown).
Arguments Returned {A} a.
Arguments Threw {A} e.

Definition outcome_bind {A B} (o : outcome A) (k : A -> outcome B) : outcome B :=
  match o with
  | Returned a => k a
  | Threw e => Threw e
  end.

Declare Scope outcome_scope.
Delimit Scope outcome_scope with outcome.
Notation "x <- e ; k" := (outcome_bind e (fun x => k))
  (at level 61, e at next level, right associativity) : outcome_scope.

(* ================================================================== *)
(** ** commercetools resources *)
(* ================================================================== *)

Inductive TransactionType :=
| Authorization | CancelAuthorization | Charge | Refund | Chargeback.

Definition TransactionType_eqb (a b : TransactionType) : bool :=
  match a, b with
  | Authorization, Authorization
  | CancelAuthorization, CancelAuthorization
  | Charge, Charge
  | Refund, Refund
  | Chargeback, Chargeback => true
  | _, _ => false
  end.

Definition TransactionType_name (t : TransactionType) : string :=
  match t with
  | Authorization => "Authorization"
  | CancelAuthorization => "CancelAuthorization"
  | Charge => "Charge"
  | Refund => "Refund"
  | Chargeback => "Chargeback"
  end.

(** [custom.fields]: the request fields and [customerId] are string fields of
    the connector's custom types. *)
Record CustomFields := { fields : list (string * string) }.

Record TypedMoney := {
  centAmount : Z;
  fractionDigits : Z;
  currencyCode : string
}.

Record CommercetoolsTransaction := {
  tx_id : string;
  tx_type : TransactionType;
  tx_interactionId : option string;
  tx_custom : option CustomFields
}.

Record Payment := {
  payment_custom : option CustomFields;
  amountPlanned : option TypedMoney;
  transactions : list CommercetoolsTransaction;
  interfaceId : option string
}.

Record PaymentWithOptionalTransaction := {
  payment : option Payment;
  transaction : option CommercetoolsTransaction
}.

Record Customer := {
  customer_id : string;
  customer_custom : option CustomFields
}.

Record CustomerReference := { obj_ : option Customer }.

(** [custom?.fields[name]] *)
Definition custom_field (custom : option CustomFields) (name : string) : option string :=
  match custom with
  | Some c => assoc_get (fields c) name
  | None => None
  end.

(** Truthiness of an optional string: neither missing nor empty. *)
Definition populated (field : option string) : bool :=
  match field with
  | Some s => negb (s =? "")
  | None => false
  end.

Definition optional_string (o : option string) : value :=
  match o with
  | Some s => VStr s
  | None => VUndefined
  end.

(** [payment?.custom?.fields?.[name]] *)
Definition payment_field (p : option Payment) (name : string) : option string :=
  match p with
  | Some p => custom_field (payment_custom p) name
  | None => None
  end.

(** [paymentWithOptionalTransaction?.transaction?.id] *)
Definition event_transaction_id (pwt : PaymentWithOptionalTransaction) : value :=
  match transaction pwt with
  | Some t => VStr (tx_id t)
  | None => VUndefined
  end.

Definition UpdateActions := list value.

(* ================================================================== *)
(** ** Numbers: the doubles of the amount computation *)
(* ================================================================== *)

Section Binary64.
Local Open Scope Z_scope.

(** A finite double, the number [mantissa * 2^exponent].  The infinities,
    NaN and the sign of zero play no part in the computation of an amount
    and are left out, and so is the exponent range of binary64, which no
    amount reaches: every result is rounded to 53 bits. *)
Record double := { mantissa : Z; exponent : Z }.

(** The integer nearest to [n / d], the even one of two that are equally
    near. *)
Definition round_half_even (n d : Z) : Z :=
  let k := n / d in
  let r := n mod d in
  if 2 * r <? d then k
  else if d <? 2 * r then k + 1
  else if Z.even k then k else k + 1.

(** The [e] with [2^e <= p / q < 2^(e+1)]. *)
Definition binade (p q : Z) : Z :=
  if q <=? p then Z.log2 (p / q) else - Z.log2_up ((q + p - 1) / p).

(** The double nearest to [p / q], for positive [p] and [q]
    (round to nearest, ties to even). *)
Definition round_ratio (p q : Z) : double :=
  let s := binade p q - 52 in
  {| mantissa := if 0 <=? s then round_half_even p (q * 2 ^ s)
                 else round_half_even (p * 2 ^ (- s)) q;
     exponent := s |}.

(** The double nearest to [p / q], for positive [q]. *)
Definition to_double (p q : Z) : double :=
  if p =? 0 then {| mantissa := 0; exponent := 0 |}
  else if p <? 0
       then let d := round_ratio (- p) q in
            {| mantissa := - mantissa d; exponent := exponent d |}
       else round_ratio p q.

(** The Number value of an integer. *)
Definition double_of_Z (n : Z) : double := to_double n 1.

(** [a * b]: the exact product, rounded. *)
Definition double_mul (a b : double) : double :=
  let m := mantissa a * mantissa b in
  let e := exponent a + exponent b in
  if 0 <=? e then to_double (m * 2 ^ e) 1 else to_double m (2 ^ (- e)).

(** [a] and [b] are the same number. *)
Definition same_number (a b : double) : bool :=
  let e := Z.min (exponent a) (exponent b) in
  mantissa a * 2 ^ (exponent a - e) =? mantissa b * 2 ^ (exponent b - e).

(** The integer that [d] is, if it is one. *)
Definition integer_of (d : double) : option Z :=
  if 0 <=? exponent d then Some (mantissa d * 2 ^ exponent d)
  else if mantissa d mod 2 ^ (- exponent d) =? 0
       then Some (mantissa d / 2 ^ (- exponent d))
       else None.

(** The decimal numeral of an integer. *)
Definition integer_numeral (n : Z) : string := NilZero.string_of_int (Z.to_int n).

(** The [n] with [10^(n-1) <= p / q < 10^n], counted up from 0 for a ratio
    of at least 1 and down otherwise. *)
Fixpoint magnitude_up (fuel : nat) (p q n : Z) : Z :=
  match fuel with
  | O => n
  | S f => if p <? q then n else magnitude_up f p (q * 10) (n + 1)
  end.

Fixpoint magnitude_down (fuel : nat) (p q n : Z) : Z :=
  match fuel with
  | O => n
  | S f => if q <=? p * 10 then n else magnitude_down f (p * 10) q (n - 1)
  end.

Definition magnitude (p q : Z) : Z :=
  if q <=? p then magnitude_up 400 p q 0 else magnitude_down 400 p q 0.

(** The integer nearest to [p / q * 10^j]. *)
Definition scaled (p q j : Z) : Z :=
  if 0 <=? j then round_half_even (p * 10 ^ j) q
  else round_half_even p (q * 10 ^ (- j)).

(** The double nearest to [s * 10^(-j)]. *)
Definition of_scaled (s j : Z) : double :=
  if 0 <=? j then to_double s (10 ^ j) else to_double (s * 10 ^ (- j)) 1.

(** Number::toString, the digits: the least [k] for which an integer [s] of
    [k] digits has [s * 10^(n-k)] read back as [d], with the [s] nearest to
    [d]; [p / q] is [d], and [k] starts at 1.  Seventeen digits always read
    back. *)
Fixpoint shortest (fuel : nat) (d : double) (p q n k : Z) : Z * Z * Z :=
  let s := scaled p q (k - n) in
  match fuel with
  | O => (s, k, n)
  | S f => if same_number (of_scaled s (k - n)) d
           then (if s =? 10 ^ k then (1, 1, n + 1) else (s, k, n))
           else shortest f d p q n (k + 1)
  end.

(** [s] is not divisible by 10 when [k] is least. *)
Fixpoint strip_zeros (fuel : nat) (s k : Z) : Z * Z :=
  match fuel with
  | O => (s, k)
  | S f => if (s mod 10 =? 0) && (1 <? k) then strip_zeros f (s / 10) (k - 1)
           else (s, k)
  end.

Fixpoint zeros (n : nat) : string :=
  match n with
  | O => EmptyString
  | S m => String "0" (zeros m)
  end.

(** Number::toString, the layout of the [k] digits of [s] for the number
    [s * 10^(n-k)]. *)
Definition layout (s k n : Z) : string :=
  let digits := integer_numeral s in
  if (k <=? n) && (n <=? 21)
  then (digits ++ zeros (Z.to_nat (n - k)))%string
  else if (0 <? n) && (n <=? 21)
  then (substring 0 (Z.to_nat n) digits ++ "."
          ++ substring (Z.to_nat n) (Z.to_nat (k - n)) digits)%string
  else if (-6 <? n) && (n <=? 0)
  then ("0." ++ zeros (Z.to_nat (- n)) ++ digits)%string
  else
    let e := n - 1 in
    let sign := if 0 <=? e then "e+"%string else "e-"%string in
    let power := (sign ++ integer_numeral (Z.abs e))%string in
    if k =? 1 then (digits ++ power)%string
    else (substring 0 1 digits ++ "."
            ++ substring 1 (Z.to_nat (k - 1)) digits ++ power)%string.

Definition shortest_decimal (d : double) (p q : Z) : string :=
  let '(s, k, n) := shortest 17 d p q (magnitude p q) 1 in
  let '(s, k) := strip_zeros 17 s k in
  layout s k n.

(** [String(d)] for a positive [d].  An integer below 2^53 is printed digit
    for digit: its neighbours among the doubles are at least 1 away, and a
    decimal of fewer digits is an integer too. *)
Definition positive_toString (d : double) : string :=
  match integer_of d with
  | Some n => if n <? 2 ^ 53 then integer_numeral n else shortest_decimal d n 1
  | None => shortest_decimal d (mantissa d) (2 ^ (- exponent d))
  end.

(** [String(d)] *)
Definition Number_toString (d : double) : string :=
  if mantissa d =? 0 then "0"%string
  else if mantissa d <? 0
       then ("-" ++ positive_toString {| mantissa := - mantissa d;
                                         exponent := exponent d |})%string
       else positive_toString d.

End Binary64.

(* ================================================================== *)
(** ** The world outside the three files *)
(* ================================================================== *)

(** What the JavaScript engine and the process environment provide. *)
Class JsRuntime := {
  (** [JSON.parse]; [None] when it throws its [SyntaxError] *)
  JSON_parse : string -> option value;
  (** [JSON.stringify]: a string, or [undefined] *)
  JSON_stringify : value -> value;
  (** the conversion behind template literals and [+] with a string *)
  ToString : value -> string;
  (** [Math.pow(10, e)] for an integer [e] other than 0: an approximation
      that the language leaves to the engine *)
  Math_pow_10 : Z -> double;
  (** message of the [TypeError] raised on property [k] of [v] *)
  TypeError_message : value -> string -> string;
  (** message of the [SyntaxError] raised by [JSON.parse] on a text *)
  SyntaxError_message : string -> string;
  (** [error.stack] *)
  error_stack : thrown -> string;
  (** [process.env.BRAINTREE_MERCHANT_ACCOUNT] *)
  BRAINTREE_MERCHANT_ACCOUNT : option string;
  (** [process.env.BRAINTREE_AUTOCAPTURE] *)
  BRAINTREE_AUTOCAPTURE : option string
}.

(** Constants and helpers the three files import from files of the connector
    that are not among the sources; each is taken as given. *)
Class ConnectorParts := {
  (** [connector/actions] *)
  BRAINTREE_PAYMENT_INTERACTION_TYPE_KEY : string;
  (** [utils/data.utils] *)
  getCurrentTimestamp : string;
  (** [utils/map.utils] *)
  mapBraintreeMoneyToCommercetoolsMoney : value -> value -> value;
  mapBraintreeStatusToCommercetoolsTransactionState : value -> value;
  mapBraintreeStatusToCommercetoolsTransactionType : value -> value;
  mapCommercetoolsCustomerToBraintreeCustomerCreateRequest :
    Customer -> value -> outcome value;
  (** [utils/response.utils], customer side *)
  handleCustomerResponse : string -> value -> Customer -> outcome UpdateActions
}.

(** The calls [service/braintree.service] forwards to the gateway. *)
Inductive GatewayCall :=
| CallRefund (transactionId amount : value)
| CallSubmitForSettlement (transactionId amount : value)
| CallVoidTransaction (transactionId : value)
| CallTransactionSale (request : value)
| CallGetClientToken (request : value)
| CallFindCustomer (customerId : value)
| CallCreateCustomer (request : value)
| CallCreatePaymentMethod (request : value).

(** The gateway answers a call, given the calls made before it, by resolving
    with a value or rejecting. *)
Class Braintree := {
  gateway_reply : list GatewayCall -> GatewayCall -> outcome value
}.

(* ================================================================== *)
(** ** Handlers: gateway calls and exceptions *)
(* ================================================================== *)

(** An [async] handler, run to completion: it extends the log of gateway
    calls and returns or throws (a rejected promise). *)
Definition M (A : Type) : Type :=
  list GatewayCall -> list GatewayCall * outcome A.

Definition ret {A} (a : A) : M A := fun log => (log, Returned a).

Definition throw {A} (e : thrown) : M A := fun log => (log, Threw e).

Definition bind {A B} (m : M A) (k : A -> M B) : M B :=
  fun log =>
    match m log with
    | (log', Returned a) => k a log'
    | (log', Threw e) => (log', Threw e)
    end.

(** [try { m } catch (e) { handler e }] *)
Definition try_catch {A} (m : M A) (handler : thrown -> M A) : M A :=
  fun log =>
    match m log with
    | (log', Returned a) => (log', Returned a)
    | (log', Threw e) => handler e log'
    end.

Definition lift {A} (o : outcome A) : M A := fun log => (log, o).

Declare Scope handler_scope.
Delimit Scope handler_scope with handler.
Notation "x <- e ;; k" := (bind e (fun x => k))
  (at level 61, e at next level, right associativity) : handler_scope.

(** [await] of a gateway function. *)
Definition call_gateway `{Braintree} (c : GatewayCall) : M value :=
  fun log => ((log ++ [c])%list, gateway_reply log c).

(* ================================================================== *)
(** ** response.utils.ts *)
(* ================================================================== *)

Section ResponseUtils.
Context `{JsRuntime} `{ConnectorParts}.

(** [typeof data === 'string' ? data : JSON.stringify(data)] *)
Definition stringifyData (data : value) : value :=
  if typeof_string data then data else JSON_stringify data.

(** [if (typeof x === 'object') { removeEmptyProperties(x); }]: the object
    every later use of [x] sees. *)
Definition cleaned (x : value) : value :=
  if typeof_object x then removeEmptyProperties x else x.

(** Returns the update actions together with [request] as the call leaves
    it: the caller goes on using the object that was cleaned in place.
    The [logger.info] line has no effect on either. *)
Definition handleRequest (requestName : string) (request : value)
  : UpdateActions * value :=
  let request := cleaned request in
  ([ obj [ ("action", VStr "addInterfaceInteraction");
           ("type", obj [ ("typeId", VStr "type");
                          ("key", VStr BRAINTREE_PAYMENT_INTERACTION_TYPE_KEY) ]);
           ("fields", obj [ ("type", VStr (requestName ++ "Request"));
                            ("data", stringifyData request);
                            ("timestamp", VStr getCurrentTimestamp) ]) ] ],
   request).

(** [transactionId ? 'setTransactionCustomField' : 'setCustomField'] *)
Definition custom_field_action (transactionId : value) : value :=
  VStr (if truthy transactionId then "setTransactionCustomField"
        else "setCustomField").

(** An omitted [transactionId] is [VUndefined].  As with [handleRequest],
    the second component is [response] after the in-place cleaning. *)
Definition handleResponse (requestName : string) (response : value)
           (transactionId : value) (addInterfaceInteraction : bool)
  : UpdateActions * value :=
  let response := cleaned response in
  (([ obj [ ("action", custom_field_action transactionId);
            ("transactionId", transactionId);
            ("name", VStr (requestName ++ "Response"));
            ("value", stringifyData response) ] ]
    ++ (if addInterfaceInteraction
        then [ obj [ ("action", VStr "addInterfaceInteraction");
                     ("type", obj [ ("typeId", VStr "type");
                                    ("key", VStr BRAINTREE_PAYMENT_INTERACTION_TYPE_KEY) ]);
                     ("fields", obj [ ("type", VStr (requestName ++ "Response"));
                                      ("data", stringifyData response);
                                      ("timestamp", VStr getCurrentTimestamp) ]) ] ]
        else [])
    ++ [ obj [ ("action", custom_field_action transactionId);
               ("transactionId", transactionId);
               ("name", VStr (requestName ++ "Request"));
               ("value", VNull) ] ])%list,
   response).

(** [error instanceof Error && 'message' in error ? error.message
    : 'Unknown error'] *)
Definition errorMessage (error : thrown) : string :=
  match error with
  | CustomError _ message => message
  | RuntimeError message => message
  | NonError _ => "Unknown error"
  end.

Definition handleError (requestName : string) (error : thrown)
           (transactionId : value) : UpdateActions :=
  [ obj [ ("action", custom_field_action transactionId);
          ("transactionId", transactionId);
          ("name", VStr (requestName ++ "Response"));
          ("value", JSON_stringify (obj [ ("success", VBool false);
                                          ("message", VStr (errorMessage error)) ])) ];
    obj [ ("action", custom_field_action transactionId);
          ("transactionId", transactionId);
          ("name", VStr (requestName ++ "Request"));
          ("value", VNull) ] ].

(** Modelled from the spec: [payment.service.ts] imports
    [handlePaymentResponse] from [utils/response.utils], and the file among
    the sources declares no function of that name.  The spec has the
    response translated into update actions "including clearing the
    originating request field"; the one response handler of the file,
    [handleResponse], does so and takes the arguments of the call sites
    (requestName, response, transactionId?), so [handlePaymentResponse] is
    read as [handleResponse]. *)
Definition handlePaymentResponse (requestName : string) (response : value)
           (transactionId : value) : UpdateActions * value :=
  handleResponse requestName response transactionId true.

End ResponseUtils.

(* ================================================================== *)
(** ** payment.service.ts *)
(* ================================================================== *)

Section PaymentService.
Context `{JsRuntime} `{ConnectorParts} `{Braintree}.

Definition CHANNEL_COMMERCETOOLS : string := "commercetools".

(** [v.k]: a [TypeError] when [v] is [null] or [undefined] *)
Definition member (v : value) (k : string) : outcome value :=
  if nullish v then Threw (RuntimeError (TypeError_message v k))
  else Returned (get v k).

(** [target.k = x] in module (strict-mode) code: the target after the
    assignment, or the [TypeError] raised on a primitive target. *)
Definition assign (target : value) (k : string) (x : value) : outcome value :=
  match target with
  | VObj cls props => Returned (VObj cls (assoc_set props k x))
  | _ => Threw (RuntimeError (TypeError_message target k))
  end.

(** [process.env.X || undefined] *)
Definition env_or_undefined (x : option string) : value :=
  if populated x then optional_string x else VUndefined.

(** [process.env.X === 'true'] *)
Definition env_is_true (x : option string) : bool :=
  match x with
  | Some s => s =? "true"
  | None => false
  end.

(** [JSON.parse(text)], with [fallback text] for the [catch] branch *)
Definition parse_or (text : string) (fallback : value) : value :=
  match JSON_parse text with
  | Some request => request
  | None => fallback
  end.

(** [Math.pow(10, e)]: exactly 1 when [e] is zero. *)
Definition pow_10 (e : Z) : double :=
  if (e =? 0)%Z then double_of_Z 1 else Math_pow_10 e.

(** [String(centAmount * Math.pow(10, -fractionDigits || 0))]: [||] replaces
    a zero exponent by zero. *)
Definition amount_string (amountPlanned : TypedMoney) : string :=
  Number_toString
    (double_mul (double_of_Z (centAmount amountPlanned))
                (pow_10 (if (- fractionDigits amountPlanned =? 0)%Z then 0%Z
                         else (- fractionDigits amountPlanned)%Z))).

Definition parseTransactionSaleRequest (payment : Payment) : outcome value :=
  let transactionSaleRequest :=
    custom_field (payment_custom payment) "transactionSaleRequest" in
  if negb (populated transactionSaleRequest) then
    Threw (CustomError 500 "transactionSaleRequest is missing")
  else
    match amountPlanned payment with
    | None => Threw (CustomError 500 "amountPlanned is missing")
    | Some amountPlanned =>
        let request :=
          match transactionSaleRequest with
          | Some text => parse_or text (obj [ ("paymentMethodNonce", VStr text) ])
          | None => VUndefined
          end in
        (storeInVaultOnSuccess <-
           (if truthy (opt_get request "customerId") then Returned true
            else (customer <- member request "customer";
                  Returned (truthy (opt_get customer "id"))));
         Returned
           (obj (spread
                   [ ("amount", VStr (amount_string amountPlanned));
                     ("merchantAccountId",
                      env_or_undefined BRAINTREE_MERCHANT_ACCOUNT);
                     ("channel", VStr CHANNEL_COMMERCETOOLS);
                     ("options",
                      obj [ ("submitForSettlement",
                             VBool (env_is_true BRAINTREE_AUTOCAPTURE));
                            ("storeInVaultOnSuccess",
                             VBool storeInVaultOnSuccess) ]) ]
                   request)))%outcome
    end.

Definition findSuitableTransactionId
           (paymentWithOptionalTransaction : PaymentWithOptionalTransaction)
           (type : TransactionType) : outcome value :=
  match transaction paymentWithOptionalTransaction with
  | Some t => Returned (optional_string (tx_interactionId t))
  | None =>
      match payment paymentWithOptionalTransaction with
      | None => Threw (CustomError 500 "The payment has no suitable transaction")
      | Some p =>
          let transactions :=
            filter (fun t => TransactionType_eqb (tx_type t) type)
                   (transactions p) in
          if (List.length transactions =? 0)%nat then
            Threw (CustomError 500 "The payment has no suitable transaction")
          else
            match nth_error transactions (List.length transactions - 1) with
            | Some t => Returned (optional_string (tx_interactionId t))
            | None => Threw (RuntimeError (TypeError_message VUndefined "interactionId"))
            end
      end
  end.

(** [payment?.custom?.fields[requestField]
      ?? transaction?.custom?.fields[requestField] ?? null] *)
Definition request_field
           (paymentWithOptionalTransaction : PaymentWithOptionalTransaction)
           (requestField : string) : option string :=
  match payment_field (payment paymentWithOptionalTransaction) requestField with
  | Some text => Some text
  | None =>
      match transaction paymentWithOptionalTransaction with
      | Some t => custom_field (tx_custom t) requestField
      | None => None
      end
  end.

Definition parseRequest
           (paymentWithOptionalTransaction : PaymentWithOptionalTransaction)
           (requestField : string) (transactionType : TransactionType)
  : outcome value :=
  match request_field paymentWithOptionalTransaction requestField with
  | None => Threw (CustomError 500 (requestField ++ " is missing"))
  | Some requestJSON =>
      if requestJSON =? "" then
        Threw (CustomError 500 (requestField ++ " is missing"))
      else
        let request :=
          parse_or requestJSON (obj [ ("transactionId", VStr requestJSON) ]) in
        (current <- member request "transactionId";
         transactionId <-
           (if nullish current
            then findSuitableTransactionId paymentWithOptionalTransaction
                                           transactionType
            else Returned current);
         assign request "transactionId" transactionId)%outcome
  end.

Definition getPaymentMethodHint (response : value) : value :=
  match get response "paymentInstrumentType" with
  | VStr "credit_card" =>
      VStr (ToString (opt_get (opt_get response "creditCard") "cardType")
            ++ " "
            ++ ToString (opt_get (opt_get response "creditCard") "maskedNumber"))
  | VStr "paypal_account" =>
      let x := opt_get (opt_get response "paypalAccount") "payerEmail" in
      if nullish x then VStr "" else x
  | VStr "venmo_account" =>
      let x := opt_get (opt_get response "venmoAccount") "username" in
      if nullish x then VStr "" else x
  | VStr "android_pay_card" =>
      let x := opt_get (opt_get response "androidPayCard") "sourceDescription" in
      if nullish x then VStr "" else x
  | VStr "apple_pay_card" =>
      let x := opt_get (opt_get response "applePayCard") "sourceDescription" in
      if nullish x then VStr "" else x
  | _ => VStr ""
  end.

Definition updatePaymentFields (response : value) : outcome UpdateActions :=
  (status <- member response "status";
   let paymentMethodHint := getPaymentMethodHint response in
   Returned
     [ obj [ ("action", VStr "setStatusInterfaceCode");
             ("interfaceCode", status) ];
       obj [ ("action", VStr "setStatusInterfaceText");
             ("interfaceText", status) ];
       obj [ ("action", VStr "setMethodInfoMethod");
             ("method",
              VStr (ToString (get response "paymentInstrumentType")
                    ++ (if truthy paymentMethodHint
                        then " (" ++ ToString paymentMethodHint ++ ")"
                        else ""))) ] ])%outcome.

(** [amountPlanned?.fractionDigits], [amountPlanned?.currencyCode] *)
Definition fractionDigits_of (amountPlanned : option TypedMoney) : value :=
  match amountPlanned with
  | Some m => VNum (fractionDigits m)
  | None => VUndefined
  end.

Definition currencyCode_of (amountPlanned : option TypedMoney) : value :=
  match amountPlanned with
  | Some m => VStr (currencyCode m)
  | None => VUndefined
  end.

(** The [addTransaction] action all four transaction handlers push; they
    differ in [type] only, which is given by [typeOf response].  The
    properties are evaluated in the order of the object literal. *)
Definition addTransaction (typeOf : value -> outcome value) (response : value)
           (amountPlanned : option TypedMoney) : outcome value :=
  (type <- typeOf response;
   amount <- member response "amount";
   id <- member response "id";
   updatedAt <- member response "updatedAt";
   status <- member response "status";
   Returned
     (obj [ ("action", VStr "addTransaction");
            ("transaction",
             obj [ ("type", type);
                   ("amount",
                    obj [ ("centAmount",
                           mapBraintreeMoneyToCommercetoolsMoney
                             amount (fractionDigits_of amountPlanned));
                          ("currencyCode", currencyCode_of amountPlanned) ]);
                   ("interactionId", id);
                   ("timestamp", updatedAt);
                   ("state",
                    mapBraintreeStatusToCommercetoolsTransactionState status) ]) ]))%outcome.

(** The gateway functions of [braintree.service]. *)
Definition braintreeRefund (transactionId amount : value) : M value :=
  call_gateway (CallRefund transactionId amount).
Definition braintreeSubmitForSettlement (transactionId amount : value) : M value :=
  call_gateway (CallSubmitForSettlement transactionId amount).
Definition braintreeVoidTransaction (transactionId : value) : M value :=
  call_gateway (CallVoidTransaction transactionId).
Definition transactionSale (request : value) : M value :=
  call_gateway (CallTransactionSale request).
Definition getClientToken (request : value) : M value :=
  call_gateway (CallGetClientToken request).

(** The common text of [refund], [submitForSettlement] and
    [voidTransaction], which differ in the request field, the request name,
    the transaction type searched, the type of the transaction added and
    the gateway function called. *)
Definition transactionOperation
           (requestField requestName : string)
           (transactionType : TransactionType) (addedType : TransactionType)
           (braintreeCall : value -> M value)
           (paymentWithOptionalTransaction : PaymentWithOptionalTransaction)
  : M UpdateActions :=
  if negb (populated (payment_field (payment paymentWithOptionalTransaction)
                                    requestField))
  then ret []
  else
    try_catch
      (request <- lift (parseRequest paymentWithOptionalTransaction
                                     requestField transactionType) ;;
       let (updateActions, request) := handleRequest requestName request in
       response <- braintreeCall request ;;
       let (responseActions, response) :=
         handlePaymentResponse requestName response
           (event_transaction_id paymentWithOptionalTransaction) in
       let updateActions := (updateActions ++ responseActions)%list in
       let amountPlanned :=
         match payment paymentWithOptionalTransaction with
         | Some p => amountPlanned p
         | None => None
         end in
       added <- lift (addTransaction
                        (fun _ => Returned (VStr (TransactionType_name addedType)))
                        response amountPlanned) ;;
       let updateActions := (updateActions ++ [added])%list in
       paymentFields <- lift (updatePaymentFields response) ;;
       ret (updateActions ++ paymentFields)%list)%handler
      (fun e =>
         ret (handleError requestName e
                          (event_transaction_id paymentWithOptionalTransaction))).

Definition refund : PaymentWithOptionalTransaction -> M UpdateActions :=
  transactionOperation "refundRequest" "refund" Charge Refund
    (fun request =>
       braintreeRefund (get request "transactionId") (opt_get request "amount")).

Definition submitForSettlement : PaymentWithOptionalTransaction -> M UpdateActions :=
  transactionOperation "submitForSettlementRequest" "submitForSettlement"
    Authorization Charge
    (fun request =>
       braintreeSubmitForSettlement (get request "transactionId")
                                    (opt_get request "amount")).

Definition voidTransaction : PaymentWithOptionalTransaction -> M UpdateActions :=
  transactionOperation "voidRequest" "void" Authorization CancelAuthorization
    (fun request => braintreeVoidTransaction (get request "transactionId")).

Definition handleTransactionSaleRequest (payment : option Payment)
  : M UpdateActions :=
  match payment with
  | None => ret []
  | Some payment =>
      if negb (populated (custom_field (payment_custom payment)
                                       "transactionSaleRequest"))
      then ret []
      else
        try_catch
          (request <- lift (parseTransactionSaleRequest payment) ;;
           let (updateActions, request) :=
             handleRequest "transactionSale" request in
           response <- transactionSale request ;;
           let (responseActions, response) :=
             handlePaymentResponse "transactionSale" response VUndefined in
           let updateActions := (updateActions ++ responseActions)%list in
           added <- lift (addTransaction
                            (fun response =>
                               (status <- member response "status";
                                Returned
                                  (mapBraintreeStatusToCommercetoolsTransactionType
                                     status))%outcome)
                            response (amountPlanned payment)) ;;
           let updateActions := (updateActions ++ [added])%list in
           let updateActions :=
             if negb (populated (interfaceId payment))
             then (updateActions
                     ++ [ obj [ ("action", VStr "setInterfaceId");
                                ("interfaceId", get response "id") ] ])%list
             else updateActions in
           paymentFields <- lift (updatePaymentFields response) ;;
           ret (updateActions ++ paymentFields)%list)%handler
          (fun e => ret (handleError "transactionSale" e VUndefined))
  end.

Definition handleGetClientTokenRequest (payment : option Payment)
  : M UpdateActions :=
  match payment_field payment "getClientTokenRequest" with
  | None => ret []
  | Some text =>
      if text =? "" then ret []
      else
        match JSON_parse text with
        | None => throw (RuntimeError (SyntaxError_message text))
        | Some request =>
            let request :=
              obj (spread [ ("merchantAccountId",
                             env_or_undefined BRAINTREE_MERCHANT_ACCOUNT) ]
                          request) in
            let (updateActions, request) :=
              handleRequest "getClientToken" request in
            try_catch
              (response <- getClientToken request ;;
               ret (updateActions
                      ++ fst (handlePaymentResponse "getClientToken" response
                                                    VUndefined))%list)%handler
              (fun e => ret (handleError "getClientToken" e VUndefined))
        end
  end.

End PaymentService.

(* ================================================================== *)
(** ** customer.controller.ts *)
(* ================================================================== *)

(** What [update] resolves with: [{ statusCode, actions }]. *)
Record ControllerResult := {
  statusCode : Z;
  actions : UpdateActions
}.

Section CustomerController.
Context `{JsRuntime} `{ConnectorParts} `{Braintree}.

Definition findCustomer (customerId : value) : M value :=
  call_gateway (CallFindCustomer customerId).
Definition createCustomer (request : value) : M value :=
  call_gateway (CallCreateCustomer request).
Definition createPaymentMethod (request : value) : M value :=
  call_gateway (CallCreatePaymentMethod request).

(** [customer?.custom?.fields?.[name]] *)
Definition customer_field (customer : Customer) (name : string) : option string :=
  custom_field (customer_custom customer) name.

Definition parseVaultRequest (customer : Customer) : outcome value :=
  let request :=
    match customer_field customer "vaultRequest" with
    | Some text => parse_or text (obj [ ("paymentMethodNonce", VStr text) ])
    | None => obj [ ("paymentMethodNonce", VUndefined) ]
    end in
  if populated (customer_field customer "customerId") then
    (request <- assign request "customerId"
                       (optional_string (customer_field customer "customerId"));
     request <- (if negb (truthy (get request "options"))
                 then assign request "options" (obj [])
                 else Returned request);
     options <- assign (get request "options")
                       "failOnDuplicatePaymentMethod" (VBool true);
     assign request "options" options)%outcome
  else
    mapCommercetoolsCustomerToBraintreeCustomerCreateRequest
      customer (JSON_stringify request).

(** The [findRequest] block of [update]. *)
Definition update_find (customer : Customer) (updateActions : UpdateActions)
  : M UpdateActions :=
  match customer_field customer "findRequest" with
  | None => ret updateActions
  | Some text =>
      if text =? "" then ret updateActions
      else
        match JSON_parse text with
        | None => throw (RuntimeError (SyntaxError_message text))
        | Some request =>
            try_catch
              (let customerId :=
                 if negb (nullish (opt_get request "customerId"))
                 then opt_get request "customerId"
                 else match customer_field customer "customerId" with
                      | Some id => VStr id
                      | None => VStr (customer_id customer)
                      end in
               response <- findCustomer customerId ;;
               responseActions <-
                 lift (handleCustomerResponse "find" response customer) ;;
               ret (updateActions ++ responseActions)%list)%handler
              (fun e => ret (handleError "find" e VUndefined))
        end
  end.

(** The [createRequest] block of [update]. *)
Definition update_create (customer : Customer) (updateActions : UpdateActions)
  : M UpdateActions :=
  match customer_field customer "createRequest" with
  | None => ret updateActions
  | Some text =>
      if text =? "" then ret updateActions
      else
        try_catch
          (request <-
             lift (mapCommercetoolsCustomerToBraintreeCustomerCreateRequest
                     customer (VStr text)) ;;
           id <- lift (member request "id") ;;
           if negb (truthy id)
           then throw (CustomError 400 "field customerId is missing")
           else
             (response <- createCustomer request ;;
              responseActions <-
                lift (handleCustomerResponse "create" response customer) ;;
              ret (updateActions ++ responseActions)%list))%handler
          (fun e => ret (handleError "create" e VUndefined))
  end.

(** The [vaultRequest] block of [update]. *)
Definition update_vault (customer : Customer) (updateActions : UpdateActions)
  : M UpdateActions :=
  if negb (populated (customer_field customer "vaultRequest"))
  then ret updateActions
  else
    try_catch
      (request <- lift (parseVaultRequest customer) ;;
       response <-
         (if negb (populated (customer_field customer "customerId"))
          then createCustomer request
          else createPaymentMethod request) ;;
       responseActions <-
         lift (handleCustomerResponse "vault" response customer) ;;
       ret (updateActions ++ responseActions)%list)%handler
      (fun e => ret (handleError "vault" e VUndefined)).

(** [None] is the [undefined] the function resolves with when its [catch]
    block falls through. *)
Definition update (resource : CustomerReference) : M (option ControllerResult) :=
  try_catch
    (match obj_ resource with
     | None => throw (CustomError 400 "customer obj is missing")
     | Some customer =>
         (updateActions <- update_find customer [] ;;
          updateActions <- update_create customer updateActions ;;
          updateActions <- update_vault customer updateActions ;;
          ret (Some {| statusCode := 200; actions := updateActions |}))%handler
     end)
    (fun error =>
       if instanceof_Error error
       then throw (CustomError 400
                     ("Internal server error on CustomerController: "
                        ++ error_stack error))
       else ret None).

Definition customerController (action : string) (resource : CustomerReference)
  : M (option ControllerResult) :=
  if action =? "Create" then ret None
  else if action =? "Update" then update resource
  else throw (CustomError 500
                "Internal Server Error - Resource not recognized. Allowed values are 'Create' or 'Update'.").

End CustomerController.

(* ================================================================== *)
(** ** Vocabulary of the properties *)
(* ================================================================== *)

(** The three handlers that act on an existing gateway transaction. *)
Inductive TransactionOp := OpRefund | OpSubmitForSettlement | OpVoid.

(** The custom field that triggers the handler. *)
Definition op_field (op : TransactionOp) : string :=
  match op with
  | OpRefund => "refundRequest"
  | OpSubmitForSettlement => "submitForSettlementRequest"
  | OpVoid => "voidRequest"
  end.

(** The request name the handler passes to the response utilities. *)
Definition op_name (op : TransactionOp) : string :=
  match op with
  | OpRefund => "refund"
  | OpSubmitForSettlement => "submitForSettlement"
  | OpVoid => "void"
  end.

(** The type of the transaction the handler adds. *)
Definition op_added (op : TransactionOp) : TransactionType :=
  match op with
  | OpRefund => Refund
  | OpSubmitForSettlement => Charge
  | OpVoid => CancelAuthorization
  end.

(** The transaction type whose last transaction supplies a missing id. *)
Definition op_type (op : TransactionOp) : TransactionType :=
  match op with
  | OpRefund => Charge
  | OpSubmitForSettlement | OpVoid => Authorization
  end.

(** The gateway call the handler makes for a transaction id and an amount. *)
Definition op_call (op : TransactionOp) (transactionId amount : value) : GatewayCall :=
  match op with
  | OpRefund => CallRefund transactionId amount
  | OpSubmitForSettlement => CallSubmitForSettlement transactionId amount
  | OpVoid => CallVoidTransaction transactionId
  end.

Definition op_handler `{JsRuntime} `{ConnectorParts} `{Braintree} (op : TransactionOp)
  : PaymentWithOptionalTransaction -> M UpdateActions :=
  match op with
  | OpRefund => refund
  | OpSubmitForSettlement => submitForSettlement
  | OpVoid => voidTransaction
  end.

(** The action that sets custom field [name] to [x], on the transaction
    [transactionId] when there is one and on the resource itself otherwise. *)
Definition set_field_action (transactionId : value) (name : string) (x : value) : value :=
  obj [ ("action", VStr (if truthy transactionId then "setTransactionCustomField"
                         else "setCustomField"));
        ("transactionId", transactionId);
        ("name", VStr name);
        ("value", x) ].

(** [a] is a [setCustomField] or a [setTransactionCustomField] action. *)
Definition sets_custom_field (a : value) : bool :=
  match get a "action" with
  | VStr s => (s =? "setCustomField") || (s =? "setTransactionCustomField")
  | _ => false
  end.

(** [a] adds a transaction or writes a payment-status field. *)
Definition transaction_or_status_action (a : value) : bool :=
  match get a "action" with
  | VStr s => (s =? "addTransaction") || (s =? "setStatusInterfaceCode")
              || (s =? "setStatusInterfaceText") || (s =? "setMethodInfoMethod")
              || (s =? "setInterfaceId")
  | _ => false
  end.

(** The last transaction of the given type, read off the list directly. *)
Fixpoint last_of_type (type : TransactionType) (txs : list CommercetoolsTransaction)
  : option CommercetoolsTransaction :=
  match txs with
  | [] => None
  | t :: rest =>
      match last_of_type type rest with
      | Some u => Some u
      | None => if TransactionType_eqb (tx_type t) type then Some t else None
      end
  end.

(** The value of the last entry for [k]: what a property holds once every
    entry has been assigned in order. *)
Definition assoc_last {A} (ps : list (string * A)) (k : string) : option A :=
  assoc_get (rev ps) k.

(** [v] leaves nothing behind: it is [null], or an object or array all of
    whose properties leave nothing behind. *)
Fixpoint vanishes (v : value) : bool :=
  match v with
  | VNull => true
  | VObj _ props => forallb (fun kv => vanishes (snd kv)) props
  | _ => false
  end.

(** The [addInterfaceInteraction] action with the given type and data. *)
Definition interface_interaction (key type : string) (data : value) (timestamp : string)
  : value :=
  obj [ ("action", VStr "addInterfaceInteraction");
        ("type", obj [ ("typeId", VStr "type"); ("key", VStr key) ]);
        ("fields", obj [ ("type", VStr type);
                         ("data", data);
                         ("timestamp", VStr timestamp) ]) ].

(** The two actions of an error: the Response field holding the JSON text of
    [{ success: false, message }], and the Request field set to null. *)
Definition error_actions `{JsRuntime} (transactionId : value) (requestName message : string)
  : UpdateActions :=
  [ set_field_action transactionId (requestName ++ "Response")
      (JSON_stringify (obj [ ("success", VBool false); ("message", VStr message) ]));
    set_field_action transactionId (requestName ++ "Request") VNull ].


(* ================================================================== *)
(** ** A concrete world, for running the handlers *)
(* ================================================================== *)

Module Sample.

Definition quote : string := String (ascii_of_nat 34) EmptyString.

Definition decimal (n : Z) : string := NilZero.string_of_int (Z.to_int n).

Fixpoint join (sep : string) (parts : list string) : string :=
  match parts with
  | [] => EmptyString
  | [p] => p
  | p :: rest => p ++ sep ++ join sep rest
  end.

Definition backslash : string := String (ascii_of_nat 92) EmptyString.

Definition hex_digit (n : N) : string :=
  substring (N.to_nat n) 1 "0123456789abcdef".

(** A character as JSON.stringify writes it inside a string. *)
Definition escaped_char (c : ascii) : string :=
  let n := N_of_ascii c in
  if (n =? 34)%N then backslash ++ quote
  else if (n =? 92)%N then backslash ++ backslash
  else if (n =? 8)%N then backslash ++ "b"
  else if (n =? 9)%N then backslash ++ "t"
  else if (n =? 10)%N then backslash ++ "n"
  else if (n =? 12)%N then backslash ++ "f"
  else if (n =? 13)%N then backslash ++ "r"
  else if (n <? 32)%N
  then backslash ++ "u00" ++ hex_digit (n / 16) ++ hex_digit (n mod 16)
  else String c EmptyString.

Fixpoint escaped (s : string) : string :=
  match s with
  | EmptyString => EmptyString
  | String c rest => escaped_char c ++ escaped rest
  end.

Definition json_string (s : string) : string := quote ++ escaped s ++ quote.

Definition index_key (i : nat) : string := NilZero.string_of_uint (Nat.to_uint i).

(** JSON text of a value as JSON.stringify writes it; [None] for
    [undefined].  An object leaves out its undefined properties; an array
    writes its [length] elements, null for a hole or an undefined one. *)
Fixpoint json_text (v : value) : option string :=
  match v with
  | VUndefined => None
  | VNull => Some "null"
  | VBool true => Some "true"
  | VBool false => Some "false"
  | VNum n => Some (decimal n)
  | VStr s => Some (json_string s)
  | VObj cls props =>
      let texts := map (fun kv => (fst kv, json_text (snd kv))) props in
      match cls with
      | PlainObject =>
          Some ("{" ++ join ","
                         (flat_map (fun kt =>
                                      match snd kt with
                                      | Some t => [json_string (fst kt) ++ ":" ++ t]
                                      | None => []
                                      end) texts)
                    ++ "}")
      | ArrayObject length =>
          Some ("[" ++ join ","
                         (map (fun i =>
                                 match assoc_get texts (index_key i) with
                                 | Some (Some t) => t
                                 | _ => "null"
                                 end) (seq 0 (N.to_nat length)))
                    ++ "]")
      end
  end.

Definition to_string (v : value) : string :=
  match v with
  | VUndefined => "undefined"
  | VNull => "null"
  | VBool true => "true"
  | VBool false => "false"
  | VNum n => decimal n
  | VStr s => s
  | VObj _ _ => "[object Object]"
  end.

(** [{"amount":"5.00"}] *)
Definition amount_request_text : string :=
  "{" ++ quote ++ "amount" ++ quote ++ ":" ++ quote ++ "5.00" ++ quote ++ "}".

(** A payment method nonce: a text that is not JSON. *)
Definition not_json : string := "fake-valid-nonce".

(** Agrees with [JSON.parse] on the texts the examples use: two JSON
    objects, and otherwise texts that are not JSON. *)
Definition parse (text : string) : option value :=
  if text =? "{}" then Some (obj [])
  else if text =? amount_request_text then Some (obj [ ("amount", VStr "5.00") ])
  else None.

(** [Math.pow(10, e)] of an engine that returns the double nearest to the
    power. *)
Definition nearest_power_of_10 (e : Z) : double :=
  if (0 <=? e)%Z then to_double (10 ^ e) 1 else to_double 1 (10 ^ (- e)).

#[export] Instance runtime : JsRuntime := {|
  JSON_parse := parse;
  JSON_stringify := fun v => match json_text v with
                             | Some t => VStr t
                             | None => VUndefined
                             end;
  ToString := to_string;
  Math_pow_10 := nearest_power_of_10;
  TypeError_message := fun _ k => "Cannot access property " ++ k;
  SyntaxError_message := fun text => "Unexpected token in JSON: " ++ text;
  error_stack := fun e => "Error: " ++ errorMessage e;
  BRAINTREE_MERCHANT_ACCOUNT := None;
  BRAINTREE_AUTOCAPTURE := Some "true"
|}.

#[export] Instance parts : ConnectorParts := {|
  BRAINTREE_PAYMENT_INTERACTION_TYPE_KEY := "braintree-payment-interaction";
  getCurrentTimestamp := "2024-01-01T00:00:00.000Z";
  mapBraintreeMoneyToCommercetoolsMoney := fun amount _ => amount;
  mapBraintreeStatusToCommercetoolsTransactionState := fun _ => VStr "Success";
  mapBraintreeStatusToCommercetoolsTransactionType := fun _ => VStr "Charge";
  mapCommercetoolsCustomerToBraintreeCustomerCreateRequest :=
    fun customer _ => Returned (obj [ ("id", VStr (customer_id customer)) ]);
  handleCustomerResponse :=
    fun requestName response _ =>
      Returned
        [ set_field_action VUndefined (requestName ++ "Response")
            (match json_text response with
             | Some t => VStr t
             | None => VUndefined
             end);
          set_field_action VUndefined (requestName ++ "Request") VNull ]
|}.

Definition settled : value :=
  obj [ ("id", VStr "bt1"); ("status", VStr "settled");
        ("amount", VStr "10.00"); ("updatedAt", VStr "2024-01-01");
        ("paymentInstrumentType", VStr "paypal_account") ].

(** A gateway that resolves every call. *)
Definition up : Braintree := {| gateway_reply := fun _ _ => Returned settled |}.

(** A gateway that rejects every call. *)
Definition down : Braintree :=
  {| gateway_reply := fun _ _ => Threw (RuntimeError "gateway unavailable") |}.

(** A gateway that finds customers and refuses to create one. *)
Definition no_create : Braintree :=
  {| gateway_reply := fun _ call =>
       match call with
       | CallCreateCustomer _ => Threw (RuntimeError "Customer ID has already been taken.")
       | _ => Returned (obj [ ("id", VStr "c1") ])
       end |}.

Definition money : TypedMoney :=
  {| centAmount := 1000; fractionDigits := 2; currencyCode := "EUR" |}.

Definition charge : CommercetoolsTransaction :=
  {| tx_id := "t1"; tx_type := Charge; tx_interactionId := Some "bt0";
     tx_custom := None |}.

Definition payment_with (field text : string) : Payment :=
  {| payment_custom := Some {| fields := [ (field, text) ] |};
     amountPlanned := Some money;
     transactions := [ charge ];
     interfaceId := None |}.

Definition event (field text : string) (t : option CommercetoolsTransaction)
  : PaymentWithOptionalTransaction :=
  {| payment := Some (payment_with field text); transaction := t |}.

Definition customer_with (fs : list (string * string)) : Customer :=
  {| customer_id := "c1"; customer_custom := Some {| fields := fs |} |}.

End Sample.

(** More texts and answers for running the handlers. *)
Module Sample2.

(** [{"transactionId":"bt9","amount":"2.50"}] *)
Definition id_request_text : string :=
  "{" ++ Sample.quote ++ "transactionId" ++ Sample.quote ++ ":"
      ++ Sample.quote ++ "bt9" ++ Sample.quote ++ ","
      ++ Sample.quote ++ "amount" ++ Sample.quote ++ ":"
      ++ Sample.quote ++ "2.50" ++ Sample.quote ++ "}".

(** [{"paymentMethodNonce":"n1","options":{"verifyCard":true}}] *)
Definition vault_request_text : string :=
  "{" ++ Sample.quote ++ "paymentMethodNonce" ++ Sample.quote ++ ":"
      ++ Sample.quote ++ "n1" ++ Sample.quote ++ ","
      ++ Sample.quote ++ "options" ++ Sample.quote ++ ":{"
      ++ Sample.quote ++ "verifyCard" ++ Sample.quote ++ ":true}}".

(** Agrees with [JSON.parse] on the texts the examples use. *)
Definition parse (text : string) : option value :=
  if text =? "null" then Some VNull
  else if text =? id_request_text
       then Some (obj [ ("transactionId", VStr "bt9"); ("amount", VStr "2.50") ])
  else if text =? vault_request_text
       then Some (obj [ ("paymentMethodNonce", VStr "n1");
                        ("options", obj [ ("verifyCard", VBool true) ]) ])
  else Sample.parse text.

Definition runtime : JsRuntime := {|
  JSON_parse := parse;
  JSON_stringify := @JSON_stringify Sample.runtime;
  ToString := Sample.to_string;
  Math_pow_10 := Sample.nearest_power_of_10;
  TypeError_message := @TypeError_message Sample.runtime;
  SyntaxError_message := @SyntaxError_message Sample.runtime;
  error_stack := @error_stack Sample.runtime;
  BRAINTREE_MERCHANT_ACCOUNT := Some "merchant-eur";
  BRAINTREE_AUTOCAPTURE := None
|}.

(** A gateway that resolves every call with null. *)
Definition silent : Braintree := {| gateway_reply := fun _ _ => Returned VNull |}.

Definition authorization (id interactionId : string) : CommercetoolsTransaction :=
  {| tx_id := id; tx_type := Authorization; tx_interactionId := Some interactionId;
     tx_custom := None |}.

(** A payment authorized twice, with a charge in between. *)
Definition authorized_twice : Payment :=
  {| payment_custom := None;
     amountPlanned := Some Sample.money;
     transactions := [ authorization "t0" "bt-a"; Sample.charge;
                       authorization "t2" "bt-b" ];
     interfaceId := Some "bt-a" |}.

Definition card_response : value :=
  obj [ ("id", VStr "bt3"); ("status", VStr "authorized");
        ("paymentInstrumentType", VStr "credit_card") ].

End Sample2.

(** A JSON text that is no object, amounts that no double holds, and a
    mapping of customers that parses the request it is given. *)
Module Sample3.

(** [{"paymentMethodNonce":"fake-valid-nonce"}] *)
Definition nonce_request_text : string :=
  "{" ++ Sample.quote ++ "paymentMethodNonce" ++ Sample.quote ++ ":"
      ++ Sample.quote ++ Sample.not_json ++ Sample.quote ++ "}".

(** Agrees with [JSON.parse] on the texts the examples use. *)
Definition parse (text : string) : option value :=
  if text =? "5" then Some (VNum 5)
  else if text =? nonce_request_text
       then Some (obj [ ("paymentMethodNonce", VStr Sample.not_json) ])
  else Sample2.parse text.

Definition runtime : JsRuntime := {|
  JSON_parse := parse;
  JSON_stringify := @JSON_stringify Sample.runtime;
  ToString := Sample.to_string;
  Math_pow_10 := Sample.nearest_power_of_10;
  TypeError_message := @TypeError_message Sample.runtime;
  SyntaxError_message := @SyntaxError_message Sample.runtime;
  error_stack := @error_stack Sample.runtime;
  BRAINTREE_MERCHANT_ACCOUNT := None;
  BRAINTREE_AUTOCAPTURE := None
|}.

(** The parts of [Sample], with a mapping that lays the request it parses
    over the id of the customer. *)
Definition parts : ConnectorParts := {|
  BRAINTREE_PAYMENT_INTERACTION_TYPE_KEY :=
    @BRAINTREE_PAYMENT_INTERACTION_TYPE_KEY Sample.parts;
  getCurrentTimestamp := @getCurrentTimestamp Sample.parts;
  mapBraintreeMoneyToCommercetoolsMoney :=
    @mapBraintreeMoneyToCommercetoolsMoney Sample.parts;
  mapBraintreeStatusToCommercetoolsTransactionState :=
    @mapBraintreeStatusToCommercetoolsTransactionState Sample.parts;
  mapBraintreeStatusToCommercetoolsTransactionType :=
    @mapBraintreeStatusToCommercetoolsTransactionType Sample.parts;
  mapCommercetoolsCustomerToBraintreeCustomerCreateRequest :=
    fun customer request =>
      match request with
      | VStr text =>
          match parse text with
          | Some parsed =>
              Returned (obj (spread [ ("id", VStr (customer_id customer)) ] parsed))
          | None => Threw (RuntimeError (@SyntaxError_message Sample.runtime text))
          end
      | _ => Returned (obj [ ("id", VStr (customer_id customer)) ])
      end;
  handleCustomerResponse := @handleCustomerResponse Sample.parts
|}.

(** A payment of the given amount, with one request field and the
    transactions of [Sample2.authorized_twice]. *)
Definition payment_of (cents digits : Z) (field text : string) : Payment :=
  {| payment_custom := Some {| fields := [ (field, text) ] |};
     amountPlanned := Some {| centAmount := cents; fractionDigits := digits;
                              currencyCode := "EUR" |};
     transactions := transactions Sample2.authorized_twice;
     interfaceId := None |}.

End Sample3.

(* ================================================================== *)
(** ** Properties of property lists and of removeEmptyProperties *)
(* ================================================================== *)

Lemma assoc_get_set_same {A} (ps : list (string * A)) k x :
  assoc_get (assoc_set ps k x) k = Some x.
Proof.
  induction ps as [|[k' y] rest IH]; simpl.
  - now rewrite String.eqb_refl.
  - destruct (k' =? k) eqn:E; simpl.
    + now rewrite String.eqb_refl.
    + now rewrite E.
Qed.

Lemma assoc_get_set {A} (ps : list (string * A)) k' x k :
  assoc_get (assoc_set ps k' x) k
  = if k' =? k then Some x else assoc_get ps k.
Proof.
  destruct (k' =? k) eqn:E.
  - apply String.eqb_eq in E; subst. apply assoc_get_set_same.
  - induction ps as [|[k0 y] rest IH]; simpl.
    + now rewrite E.
    + destruct (k0 =? k') eqn:E0; simpl.
      * apply String.eqb_eq in E0; subst. now rewrite !E.
      * destruct (k0 =? k); auto.
Qed.

Lemma assoc_get_app {A} (ps qs : list (string * A)) k :
  assoc_get (ps ++ qs)%list k
  = match assoc_get ps k with
    | Some x => Some x
    | None => assoc_get qs k
    end.
Proof.
  induction ps as [|[k' y] rest IH]; simpl; auto.
  destruct (k' =? k); auto.
Qed.

Lemma assoc_get_insert_index {A} (ps : list (string * A)) i k' x k :
  assoc_get ps k' = None ->
  assoc_get (insert_index ps i k' x) k
  = if k' =? k then Some x else assoc_get ps k.
Proof.
  induction ps as [|[k0 y] rest IH]; intros Hnew; [reflexivity|].
  cbn [assoc_get] in Hnew. destruct (k0 =? k') eqn:E0; [discriminate|].
  cbn [insert_index].
  destruct (array_index k0) as [j|]; [destruct (j <? i)%N|]; try reflexivity.
  cbn [assoc_get]. rewrite (IH Hnew).
  destruct (k0 =? k) eqn:E; [|reflexivity].
  apply String.eqb_eq in E; subst k0.
  rewrite String.eqb_sym in E0. now rewrite E0.
Qed.

Lemma assoc_get_define_own {A} (ps : list (string * A)) k' x k :
  assoc_get (define_own ps k' x) k
  = if k' =? k then Some x else assoc_get ps k.
Proof.
  unfold define_own.
  destruct (assoc_get ps k') eqn:Hnew; [apply assoc_get_set|].
  destruct (array_index k'); [now apply assoc_get_insert_index | apply assoc_get_set].
Qed.

(** Defining the entries of [l] in order leaves, under [k], the value of the
    last entry of [l] for [k], or what [base] held. *)
Lemma assoc_get_assign_all {A} (l base : list (string * A)) k :
  assoc_get (fold_left (fun acc kv => define_own acc (fst kv) (snd kv)) l base) k
  = match assoc_last l k with
    | Some x => Some x
    | None => assoc_get base k
    end.
Proof.
  unfold assoc_last. revert base.
  induction l as [|[k' y] rest IH]; intros base; simpl; auto.
  rewrite IH, assoc_get_app, assoc_get_define_own. simpl.
  destruct (assoc_get (rev rest) k); auto.
  destruct (k' =? k); auto.
Qed.

Lemma assoc_last_none {A} (l : list (string * A)) k :
  assoc_get l k = None -> assoc_last l k = None.
Proof.
  unfold assoc_last.
  induction l as [|[k' y] rest IH]; simpl; auto.
  destruct (k' =? k) eqn:E; [discriminate|].
  intros Hn. rewrite assoc_get_app, (IH Hn). simpl. now rewrite E.
Qed.

(** A property that holds neither [null] nor an object is left alone. *)
Lemma visit_property_primitive recur k x :
  typeof_object x = false -> visit_property recur (k, x) = [(k, x)].
Proof. destruct x; simpl; auto; discriminate. Qed.

Lemma visit_property_keys recur k' y k :
  (k' =? k) = false -> assoc_get (visit_property recur (k', y)) k = None.
Proof.
  intros E. destruct y; simpl; rewrite ?E; auto.
  destruct (Object_keys_empty _); simpl; rewrite ?E; auto.
Qed.

Lemma removeEmptyProperties_keeps cls props k x :
  assoc_get props k = Some x -> typeof_object x = false ->
  get (removeEmptyProperties (VObj cls props)) k = x.
Proof.
  intros Hget Hx. simpl.
  enough (assoc_get (flat_map (visit_property removeEmptyProperties) props) k
          = Some x) as -> by reflexivity.
  induction props as [|[k' y] rest IH]; simpl in Hget; [discriminate|].
  cbn [flat_map]. rewrite assoc_get_app.
  destruct (k' =? k) eqn:E.
  - injection Hget as ->. rewrite visit_property_primitive by assumption.
    simpl. now rewrite E.
  - rewrite visit_property_keys by assumption. auto.
Qed.

Lemma removeEmptyProperties_object cls props :
  exists props', removeEmptyProperties (VObj cls props) = VObj cls props'.
Proof. eexists; reflexivity. Qed.

Lemma no_empty_properties_visit v k :
  no_empty_properties (removeEmptyProperties v) = true ->
  forallb (fun kv =>
             negb (is_null (snd kv)) && negb (empty_object (snd kv))
             && no_empty_properties (snd kv))
          (visit_property removeEmptyProperties (k, v)) = true.
Proof.
  intros IH. destruct v; try reflexivity.
  unfold visit_property.
  destruct (Object_keys_empty (removeEmptyProperties (VObj cls props))) eqn:E;
    [reflexivity|].
  cbn [forallb snd]. rewrite IH.
  simpl in E |- *.
  destruct (flat_map (visit_property removeEmptyProperties) props);
    [discriminate | reflexivity].
Qed.

Lemma removeEmptyProperties_clean v :
  no_empty_properties (removeEmptyProperties v) = true.
Proof.
  induction v as [| | | | |cls props IH] using value_props_ind; try reflexivity.
  simpl. induction IH as [|[k v] rest Hv _ IHrest]; [reflexivity|].
  simpl. rewrite forallb_app, IHrest, andb_true_r.
  now apply no_empty_properties_visit.
Qed.

Lemma visit_property_again v k :
  removeEmptyProperties (removeEmptyProperties v) = removeEmptyProperties v ->
  flat_map (visit_property removeEmptyProperties)
           (visit_property removeEmptyProperties (k, v))
  = visit_property removeEmptyProperties (k, v).
Proof.
  intros IH. destruct v; try reflexivity.
  unfold visit_property at 2 3.
  destruct (Object_keys_empty (removeEmptyProperties (VObj cls props))) eqn:E;
    [reflexivity|].
  destruct (removeEmptyProperties_object cls props) as [props' Hp].
  rewrite Hp in *. cbn [flat_map]. rewrite app_nil_r.
  change (visit_property removeEmptyProperties (k, VObj cls props'))
    with (if Object_keys_empty (removeEmptyProperties (VObj cls props'))
          then [] else [(k, removeEmptyProperties (VObj cls props'))]).
  rewrite IH, E. reflexivity.
Qed.

Lemma removeEmptyProperties_idempotent v :
  removeEmptyProperties (removeEmptyProperties v) = removeEmptyProperties v.
Proof.
  induction v as [| | | | |cls props IH] using value_props_ind; try reflexivity.
  simpl. f_equal.
  induction IH as [|[k v] rest Hv _ IHrest]; [reflexivity|].
  simpl. rewrite flat_map_app, IHrest. f_equal.
  now apply visit_property_again.
Qed.

(** C8.  removeEmptyProperties is idempotent, and the object it leaves has,
    at every depth, no property whose value is null and no property whose
    value is an object with zero own keys. *)
Theorem removeEmptyProperties_idempotent_and_clean :
  forall response : value,
    removeEmptyProperties (removeEmptyProperties response)
    = removeEmptyProperties response
    /\ no_empty_properties (removeEmptyProperties response) = true.
Proof.
  intros response. split.
  - apply removeEmptyProperties_idempotent.
  - apply removeEmptyProperties_clean.
Qed.

(* ================================================================== *)
(** ** Integers among the doubles *)
(* ================================================================== *)

Section Binary64Properties.
Local Open Scope Z_scope.







(** The search for the shortest digits agrees with the numeral on the
    integers it is not used for, here those up to 3000. *)
Lemma shortest_decimal_of_small_integers :
  forallb (fun n => (shortest_decimal (double_of_Z n) n 1 =? integer_numeral n)%string)
          (map Z.of_nat (seq 1 3000))
  = true.
Proof. vm_compute. reflexivity. Qed.

End Binary64Properties.

(* ================================================================== *)
(** ** How the payment handlers run *)
(* ================================================================== *)

Section PaymentProperties.
Context `{JsRuntime} `{ConnectorParts} `{Braintree}.

(** The steps of a transaction handler whose request field is populated. *)
Lemma transactionOperation_run
      requestField requestName transactionType addedType braintreeCall pwt log :
  populated (payment_field (payment pwt) requestField) = true ->
  transactionOperation requestField requestName transactionType addedType
                       braintreeCall pwt log
  = match parseRequest pwt requestField transactionType with
    | Threw e =>
        (log, Returned (handleError requestName e (event_transaction_id pwt)))
    | Returned request =>
        match braintreeCall (cleaned request) log with
        | (log', Threw e) =>
            (log', Returned (handleError requestName e (event_transaction_id pwt)))
        | (log', Returned response) =>
            match addTransaction
                    (fun _ => Returned (VStr (TransactionType_name addedType)))
                    (cleaned response)
                    match payment pwt with
                    | Some p => amountPlanned p
                    | None => None
                    end,
                  updatePaymentFields (cleaned response) with
            | Returned added, Returned paymentFields =>
                (log',
                 Returned
                   (fst (handleRequest requestName request)
                      ++ fst (handlePaymentResponse requestName response
                                                    (event_transaction_id pwt))
                      ++ [added] ++ paymentFields)%list)
            | Threw e, _ | Returned _, Threw e =>
                (log', Returned (handleError requestName e (event_transaction_id pwt)))
            end
        end
    end.
Proof.
  intros Hfield. unfold transactionOperation. rewrite Hfield. cbn [negb].
  unfold try_catch, bind, lift, ret.
  destruct (parseRequest pwt requestField transactionType) as [request|e];
    [|reflexivity].
  cbn [handleRequest handlePaymentResponse handleResponse fst snd].
  destruct (braintreeCall (cleaned request) log) as [log' [response|e]];
    [|reflexivity].
  destruct (addTransaction _ (cleaned response) _) as [added|e]; [|reflexivity].
  destruct (updatePaymentFields (cleaned response)) as [paymentFields|e];
    [|reflexivity].
  now rewrite <- !app_assoc.
Qed.

Lemma op_handler_unfold op :
  op_handler op
  = transactionOperation (op_field op) (op_name op) (op_type op) (op_added op)
      (fun request =>
         call_gateway (op_call op (get request "transactionId")
                               (opt_get request "amount"))).
Proof. destruct op; reflexivity. Qed.

(** A populated handler always resolves: with the two error actions, or
    with the request, response, transaction and payment-field actions. *)
Lemma op_handler_run op pwt log :
  populated (payment_field (payment pwt) (op_field op)) = true ->
  exists log',
    (exists e,
        op_handler op pwt log
        = (log', Returned (handleError (op_name op) e (event_transaction_id pwt))))
    \/ (exists request response added paymentFields,
           addTransaction
             (fun _ => Returned (VStr (TransactionType_name (op_added op))))
             (cleaned response)
             match payment pwt with
             | Some p => amountPlanned p
             | None => None
             end = Returned added
           /\ updatePaymentFields (cleaned response) = Returned paymentFields
           /\ op_handler op pwt log
              = (log',
                 Returned
                   (fst (handleRequest (op_name op) request)
                      ++ fst (handlePaymentResponse (op_name op) response
                                                    (event_transaction_id pwt))
                      ++ [added] ++ paymentFields)%list)).
Proof.
  intros Hfield. rewrite op_handler_unfold, transactionOperation_run by assumption.
  destruct (parseRequest _ _ _) as [request|e]; [|eauto].
  unfold call_gateway.
  destruct (gateway_reply log _) as [response|e]; [|eauto].
  destruct (addTransaction _ (cleaned response) _) as [added|e] eqn:Ea; [|eauto].
  destruct (updatePaymentFields (cleaned response)) as [paymentFields|e] eqn:Eu;
    [|eauto].
  eexists. right. exists request, response, added, paymentFields. auto.
Qed.

Lemma op_request_field op : (op_name op ++ "Request") = op_field op.
Proof. destruct op; reflexivity. Qed.

Lemma handleError_clears requestName e transactionId :
  In (set_field_action transactionId (requestName ++ "Request") VNull)
     (handleError requestName e transactionId).
Proof. right; left; reflexivity. Qed.

Lemma handlePaymentResponse_clears requestName response transactionId :
  In (set_field_action transactionId (requestName ++ "Request") VNull)
     (fst (handlePaymentResponse requestName response transactionId)).
Proof. right; right; left; reflexivity. Qed.

Lemma handleTransactionSaleRequest_run payment log :
  populated (custom_field (payment_custom payment) "transactionSaleRequest") = true ->
  handleTransactionSaleRequest (Some payment) log
  = match parseTransactionSaleRequest payment with
    | Threw e => (log, Returned (handleError "transactionSale" e VUndefined))
    | Returned request =>
        let log' := (log ++ [CallTransactionSale (cleaned request)])%list in
        match gateway_reply log (CallTransactionSale (cleaned request)) with
        | Threw e => (log', Returned (handleError "transactionSale" e VUndefined))
        | Returned response =>
            match addTransaction
                    (fun response =>
                       (status <- member response "status";
                        Returned
                          (mapBraintreeStatusToCommercetoolsTransactionType
                             status))%outcome)
                    (cleaned response) (amountPlanned payment),
                  updatePaymentFields (cleaned response) with
            | Returned added, Returned paymentFields =>
                (log',
                 Returned
                   (fst (handleRequest "transactionSale" request)
                      ++ fst (handlePaymentResponse "transactionSale" response
                                                    VUndefined)
                      ++ [added]
                      ++ (if negb (populated (interfaceId payment))
                          then [ obj [ ("action", VStr "setInterfaceId");
                                       ("interfaceId", get (cleaned response) "id") ] ]
                          else [])
                      ++ paymentFields)%list)
            | Threw e, _ | Returned _, Threw e =>
                (log', Returned (handleError "transactionSale" e VUndefined))
            end
        end
    end.
Proof.
  intros Hfield. unfold handleTransactionSaleRequest. rewrite Hfield. cbn [negb].
  unfold try_catch, bind, lift, ret, transactionSale, call_gateway.
  destruct (parseTransactionSaleRequest payment) as [request|e]; [|reflexivity].
  cbn [handleRequest handlePaymentResponse handleResponse fst snd].
  destruct (gateway_reply log _) as [response|e]; [|reflexivity].
  destruct (addTransaction _ (cleaned response) _) as [added|e]; [|reflexivity].
  destruct (updatePaymentFields (cleaned response)) as [paymentFields|e];
    [|reflexivity].
  cbv zeta. destruct (negb (populated (interfaceId payment)));
    now rewrite <- ?app_assoc.
Qed.

Lemma handleGetClientTokenRequest_run payment text request log :
  payment_field payment "getClientTokenRequest" = Some text ->
  text <> "" ->
  JSON_parse text = Some request ->
  let sent :=
    cleaned (obj (spread [ ("merchantAccountId",
                            env_or_undefined BRAINTREE_MERCHANT_ACCOUNT) ]
                         request)) in
  handleGetClientTokenRequest payment log
  = ((log ++ [CallGetClientToken sent])%list,
     match gateway_reply log (CallGetClientToken sent) with
     | Returned response =>
         Returned
           (fst (handleRequest "getClientToken"
                   (obj (spread [ ("merchantAccountId",
                                   env_or_undefined BRAINTREE_MERCHANT_ACCOUNT) ]
                                request)))
              ++ fst (handlePaymentResponse "getClientToken" response VUndefined))%list
     | Threw e => Returned (handleError "getClientToken" e VUndefined)
     end).
Proof.
  intros Hfield Htext Hparse sent. unfold handleGetClientTokenRequest.
  rewrite Hfield. apply String.eqb_neq in Htext. rewrite Htext, Hparse.
  cbn [handleRequest]. fold sent.
  unfold try_catch, bind, ret, getClientToken, call_gateway.
  destruct (gateway_reply log (CallGetClientToken sent)); reflexivity.
Qed.

(** Takes apart a hypothesis stating that a chain of steps returned. *)
Ltac returned H :=
  repeat match type of H with
         | context [if ?c then _ else _] => destruct c; try discriminate H
         | context [match ?x with _ => _ end] => destruct x; try discriminate H
         end;
  try (injection H as H).

Lemma addTransaction_action typeOf response amountPlanned added :
  addTransaction typeOf response amountPlanned = Returned added ->
  get added "action" = VStr "addTransaction".
Proof.
  unfold addTransaction, outcome_bind, member. intros Hr.
  returned Hr. now subst added.
Qed.

Lemma updatePaymentFields_actions response paymentFields a :
  updatePaymentFields response = Returned paymentFields ->
  In a paymentFields ->
  get a "action" = VStr "setStatusInterfaceCode"
  \/ get a "action" = VStr "setStatusInterfaceText"
  \/ get a "action" = VStr "setMethodInfoMethod".
Proof.
  unfold updatePaymentFields, outcome_bind, member. intros Hr Hin.
  destruct (nullish response); [discriminate|].
  injection Hr as <-.
  destruct Hin as [<-|[<-|[<-|[]]]]; auto.
Qed.

Lemma handleRequest_action requestName request a :
  In a (fst (handleRequest requestName request)) ->
  get a "action" = VStr "addInterfaceInteraction".
Proof. intros [<-|[]]. reflexivity. Qed.

Lemma handlePaymentResponse_actions requestName response transactionId a :
  In a (fst (handlePaymentResponse requestName response transactionId)) ->
  get a "action" = VStr "addInterfaceInteraction"
  \/ (get a "action" = custom_field_action transactionId
      /\ get a "transactionId" = transactionId).
Proof. intros [<-|[<-|[<-|[]]]]; auto. Qed.

Lemma handleError_actions requestName e transactionId a :
  In a (handleError requestName e transactionId) ->
  get a "action" = custom_field_action transactionId
  /\ get a "transactionId" = transactionId.
Proof. intros [<-|[<-|[]]]; auto. Qed.

Lemma handleError_literal requestName e transactionId :
  handleError requestName e transactionId
  = [ set_field_action transactionId (requestName ++ "Response")
        (JSON_stringify (obj [ ("success", VBool false);
                               ("message", VStr (errorMessage e)) ]));
      set_field_action transactionId (requestName ++ "Request") VNull ].
Proof. reflexivity. Qed.

Lemma set_field_action_kind transactionId name x :
  sets_custom_field (set_field_action transactionId name x) = true
  /\ transaction_or_status_action (set_field_action transactionId name x) = false.
Proof. unfold set_field_action. destruct (truthy transactionId); split; reflexivity. Qed.

(** C3.  A handler whose triggering custom field is not populated (absent,
    or the payment itself undefined, or the field empty) returns the empty
    list of update actions and leaves the log of gateway calls as it found
    it. *)
Theorem unpopulated_field_no_actions_no_call :
  (forall op pwt log,
      populated (payment_field (payment pwt) (op_field op)) = false ->
      op_handler op pwt log = (log, Returned []))
  /\ (forall payment log,
        populated (payment_field payment "transactionSaleRequest") = false ->
        handleTransactionSaleRequest payment log = (log, Returned []))
  /\ (forall payment log,
        populated (payment_field payment "getClientTokenRequest") = false ->
        handleGetClientTokenRequest payment log = (log, Returned [])).
Proof.
  split; [|split].
  - intros op pwt log Hfield. rewrite op_handler_unfold.
    unfold transactionOperation. now rewrite Hfield.
  - intros [payment|] log Hfield; [|reflexivity].
    unfold handleTransactionSaleRequest. simpl in Hfield. now rewrite Hfield.
  - intros payment log Hfield. unfold handleGetClientTokenRequest.
    destruct (payment_field payment "getClientTokenRequest") as [text|];
      [|reflexivity].
    simpl in Hfield. apply negb_false_iff in Hfield. now rewrite Hfield.
Qed.

(** C2.  When request parsing or the gateway call throws inside refund,
    submitForSettlement, voidTransaction or handleTransactionSaleRequest,
    the handler returns exactly two update actions: the one that sets the
    operation's Response field to the JSON string of
    {success: false, message: <error message>} and the one that sets the
    operation's Request field to null; neither adds a transaction nor
    writes a payment-status field. *)
Theorem failure_returns_the_two_error_actions :
  (forall op pwt log e,
      populated (payment_field (payment pwt) (op_field op)) = true ->
      (parseRequest pwt (op_field op) (op_type op) = Threw e
       \/ exists request,
           parseRequest pwt (op_field op) (op_type op) = Returned request
           /\ gateway_reply log
                (op_call op (get (cleaned request) "transactionId")
                         (opt_get (cleaned request) "amount")) = Threw e) ->
      exists log',
        op_handler op pwt log
        = (log',
           Returned
             [ set_field_action (event_transaction_id pwt)
                 (op_name op ++ "Response")
                 (JSON_stringify (obj [ ("success", VBool false);
                                        ("message", VStr (errorMessage e)) ]));
               set_field_action (event_transaction_id pwt)
                 (op_field op) VNull ]))
  /\ (forall payment log e,
        populated (custom_field (payment_custom payment)
                                "transactionSaleRequest") = true ->
        (parseTransactionSaleRequest payment = Threw e
         \/ exists request,
             parseTransactionSaleRequest payment = Returned request
             /\ gateway_reply log (CallTransactionSale (cleaned request))
                = Threw e) ->
        exists log',
          handleTransactionSaleRequest (Some payment) log
          = (log',
             Returned
               [ set_field_action VUndefined "transactionSaleResponse"
                   (JSON_stringify (obj [ ("success", VBool false);
                                          ("message", VStr (errorMessage e)) ]));
                 set_field_action VUndefined "transactionSaleRequest" VNull ]))
  /\ (forall transactionId name x,
        transaction_or_status_action (set_field_action transactionId name x)
        = false).
Proof.
  split; [|split].
  - intros op pwt log e Hfield Hthrow.
    rewrite op_handler_unfold, transactionOperation_run by assumption.
    destruct Hthrow as [->|[request [-> Hreply]]].
    + rewrite <- op_request_field, <- handleError_literal. eauto.
    + unfold call_gateway. rewrite Hreply.
      rewrite <- op_request_field, <- handleError_literal. eauto.
  - intros payment log e Hfield Hthrow.
    rewrite handleTransactionSaleRequest_run by assumption.
    change (set_field_action VUndefined "transactionSaleRequest" VNull)
      with (set_field_action VUndefined ("transactionSale" ++ "Request") VNull).
    change "transactionSaleResponse" with ("transactionSale" ++ "Response").
    rewrite <- handleError_literal.
    destruct Hthrow as [->|[request [-> Hreply]]]; [eauto|].
    cbv zeta. rewrite Hreply. eauto.
  - intros. apply set_field_action_kind.
Qed.

(** C1, as amended.  Whenever the triggering request field is populated,
    refund, submitForSettlement, voidTransaction and
    handleTransactionSaleRequest return a list that holds the action
    setting that field to null, whether parsing and the gateway call succeed
    or fail; handleGetClientTokenRequest does so whenever its field parses
    as JSON, whether the gateway call succeeds or fails. *)
Theorem request_field_is_cleared :
  (forall op pwt log,
      populated (payment_field (payment pwt) (op_field op)) = true ->
      exists log' updateActions,
        op_handler op pwt log = (log', Returned updateActions)
        /\ In (set_field_action (event_transaction_id pwt) (op_field op) VNull)
              updateActions)
  /\ (forall payment log,
        populated (custom_field (payment_custom payment)
                                "transactionSaleRequest") = true ->
        exists log' updateActions,
          handleTransactionSaleRequest (Some payment) log
          = (log', Returned updateActions)
          /\ In (set_field_action VUndefined "transactionSaleRequest" VNull)
                updateActions)
  /\ (forall payment log text request,
        payment_field payment "getClientTokenRequest" = Some text ->
        text <> "" ->
        JSON_parse text = Some request ->
        exists log' updateActions,
          handleGetClientTokenRequest payment log
          = (log', Returned updateActions)
          /\ In (set_field_action VUndefined "getClientTokenRequest" VNull)
                updateActions).
Proof.
  split; [|split].
  - intros op pwt log Hfield.
    destruct (op_handler_run op pwt log Hfield)
      as [log' [[e ->]|(request & response & added & fields & _ & _ & ->)]];
      exists log'; eexists; (split; [reflexivity|]);
      rewrite <- op_request_field.
    + apply handleError_clears.
    + apply in_or_app; right. apply in_or_app; left.
      apply handlePaymentResponse_clears.
  - intros payment log Hfield.
    rewrite handleTransactionSaleRequest_run by assumption.
    pose proof (handleError_clears "transactionSale") as Herr.
    pose proof (handlePaymentResponse_clears "transactionSale") as Hok.
    destruct (parseTransactionSaleRequest payment) as [request|e]; [|eauto].
    cbv zeta. destruct (gateway_reply log _) as [response|e]; [|eauto].
    destruct (addTransaction _ _ _); [|eauto].
    destruct (updatePaymentFields _); [|eauto].
    do 2 eexists. split; [reflexivity|].
    apply in_or_app; right. apply in_or_app; left. apply Hok.
  - intros payment log text request Hfield Htext Hparse.
    rewrite (handleGetClientTokenRequest_run _ _ Hfield Htext Hparse).
    pose proof (handleError_clears "getClientToken") as Herr.
    pose proof (handlePaymentResponse_clears "getClientToken") as Hok.
    destruct (gateway_reply log _) as [response|e]; [|eauto].
    do 2 eexists. split; [reflexivity|].
    apply in_or_app; right. apply Hok.
Qed.

Lemma custom_field_action_target pwt a :
  (forall t, transaction pwt = Some t -> tx_id t <> "") ->
  get a "action" = custom_field_action (event_transaction_id pwt)
  /\ get a "transactionId" = event_transaction_id pwt ->
  match transaction pwt with
  | Some t => get a "action" = VStr "setTransactionCustomField"
              /\ get a "transactionId" = VStr (tx_id t)
  | None => get a "action" = VStr "setCustomField"
  end.
Proof.
  unfold event_transaction_id, custom_field_action.
  intros Hid [Haction Htid].
  destruct (transaction pwt) as [t|]; [|assumption].
  split; [|assumption]. rewrite Haction. simpl.
  destruct (tx_id t =? "") eqn:E; [|reflexivity].
  apply String.eqb_eq in E. now destruct (Hid t eq_refl).
Qed.

Lemma not_a_custom_field_action a s :
  get a "action" = VStr s ->
  (s =? "setCustomField") || (s =? "setTransactionCustomField") = false ->
  sets_custom_field a = true -> False.
Proof.
  unfold sets_custom_field. intros -> ->. discriminate.
Qed.

(** C9.  Every setCustomField-style action that refund,
    submitForSettlement or voidTransaction returns (the response write, the
    request clearing, the error write) is a setTransactionCustomField with
    the event's transaction id when the event includes a transaction, and a
    setCustomField otherwise, on the success path and on the error path
    alike.  Transaction ids, issued by the platform, are not empty. *)
Theorem custom_field_actions_target_the_event_transaction :
  forall op pwt log,
    populated (payment_field (payment pwt) (op_field op)) = true ->
    (forall t, transaction pwt = Some t -> tx_id t <> "") ->
    exists log' updateActions,
      op_handler op pwt log = (log', Returned updateActions)
      /\ (exists a, In a updateActions /\ sets_custom_field a = true)
      /\ (forall a,
            In a updateActions -> sets_custom_field a = true ->
            match transaction pwt with
            | Some t => get a "action" = VStr "setTransactionCustomField"
                        /\ get a "transactionId" = VStr (tx_id t)
            | None => get a "action" = VStr "setCustomField"
            end).
Proof.
  intros op pwt log Hfield Hid.
  destruct (op_handler_run op pwt log Hfield)
    as [log' [[e ->]|(request & response & added & fields & Ha & Hf & ->)]];
    exists log'; eexists; (split; [reflexivity|]); split.
  - eexists. split; [apply handleError_clears | apply set_field_action_kind].
  - intros a Hin _. apply custom_field_action_target; [assumption|].
    eapply handleError_actions; eassumption.
  - eexists. split; [|apply set_field_action_kind].
    apply in_or_app; right. apply in_or_app; left.
    apply handlePaymentResponse_clears.
  - intros a Hin Hsets.
    rewrite !in_app_iff in Hin.
    destruct Hin as [Hin|[Hin|[Hin|Hin]]].
    + apply handleRequest_action in Hin.
      now destruct (not_a_custom_field_action _ Hin eq_refl Hsets).
    + apply handlePaymentResponse_actions in Hin. destruct Hin as [Hin|Hin].
      * now destruct (not_a_custom_field_action _ Hin eq_refl Hsets).
      * now apply custom_field_action_target.
    + destruct Hin as [<-|[]]. apply addTransaction_action in Ha.
      now destruct (not_a_custom_field_action _ Ha eq_refl Hsets).
    + destruct (updatePaymentFields_actions _ _ Hf Hin) as [Hx|[Hx|Hx]];
        now destruct (not_a_custom_field_action _ Hx eq_refl Hsets).
Qed.

(** The filter-and-index of the code picks the last transaction of the
    type. *)
Lemma last_of_type_filter type txs :
  let matching := filter (fun t => TransactionType_eqb (tx_type t) type) txs in
  nth_error matching (List.length matching - 1) = last_of_type type txs.
Proof.
  cbv zeta. induction txs as [|t rest IH]; [reflexivity|].
  cbn [filter last_of_type]. rewrite <- IH.
  destruct (TransactionType_eqb (tx_type t) type).
  - destruct (filter _ rest) as [|u matching]; [reflexivity|].
    replace (List.length (t :: u :: matching) - 1)%nat
      with (S (List.length matching)) by (simpl; lia).
    replace (List.length (u :: matching) - 1)%nat
      with (List.length matching) by (simpl; lia).
    cbn [nth_error].
    destruct (nth_error (u :: matching) (List.length matching)) eqn:E;
      [reflexivity|].
    apply nth_error_None in E. simpl in E. lia.
  - now destruct (nth_error _ _).
Qed.

Lemma findSuitableTransactionId_last pwt type :
  findSuitableTransactionId pwt type
  = match transaction pwt with
    | Some t => Returned (optional_string (tx_interactionId t))
    | None =>
        match last_of_type type
                           match payment pwt with
                           | Some p => transactions p
                           | None => []
                           end with
        | Some t => Returned (optional_string (tx_interactionId t))
        | None => Threw (CustomError 500 "The payment has no suitable transaction")
        end
    end.
Proof.
  unfold findSuitableTransactionId.
  destruct (transaction pwt); [reflexivity|].
  destruct (payment pwt) as [p|]; [|reflexivity].
  rewrite <- last_of_type_filter. cbv zeta.
  destruct (filter _ (transactions p)) as [|u matching]; [reflexivity|].
  cbn [List.length Nat.eqb].
  destruct (nth_error _ _) eqn:E; [reflexivity|].
  apply nth_error_None in E. simpl in E. lia.
Qed.

Lemma request_field_of_payment pwt requestField text :
  payment_field (payment pwt) requestField = Some text ->
  request_field pwt requestField = Some text.
Proof. unfold request_field. now intros ->. Qed.

Lemma populated_text (text : string) :
  text <> "" -> populated (Some text) = true.
Proof. intros Hn. simpl. apply String.eqb_neq in Hn. now rewrite Hn. Qed.

Lemma optional_string_primitive o : typeof_object (optional_string o) = false.
Proof. now destruct o. Qed.

(** A parsed object without a transactionId gets the derived one. *)
Lemma parseRequest_derives pwt requestField type text cls props :
  payment_field (payment pwt) requestField = Some text ->
  text <> "" ->
  JSON_parse text = Some (VObj cls props) ->
  nullish (get (VObj cls props) "transactionId") = true ->
  parseRequest pwt requestField type
  = (transactionId <- findSuitableTransactionId pwt type;
     Returned (VObj cls (assoc_set props "transactionId" transactionId)))%outcome.
Proof.
  intros Hfield Htext Hparse Hmissing. unfold parseRequest.
  rewrite (request_field_of_payment _ _ Hfield).
  apply String.eqb_neq in Htext. rewrite Htext.
  unfold parse_or. rewrite Hparse.
  unfold member. cbn [nullish outcome_bind]. rewrite Hmissing.
  reflexivity.
Qed.

(** The gateway call of a transaction handler whose request parsed. *)
Lemma op_handler_call op pwt log request :
  populated (payment_field (payment pwt) (op_field op)) = true ->
  parseRequest pwt (op_field op) (op_type op) = Returned request ->
  fst (op_handler op pwt log)
  = (log ++ [op_call op (get (cleaned request) "transactionId")
                     (opt_get (cleaned request) "amount")])%list.
Proof.
  intros Hfield Hparse.
  rewrite op_handler_unfold, transactionOperation_run, Hparse by assumption.
  unfold call_gateway.
  destruct (gateway_reply log _); [|reflexivity].
  destruct (addTransaction _ _ _); [|reflexivity].
  now destruct (updatePaymentFields _).
Qed.

(** C5, as amended.  For refund, submitForSettlement and voidTransaction,
    when the request parses to an object or array that carries no
    transactionId: if the event
    includes a transaction, the gateway is called with its interactionId;
    otherwise with the interactionId of the last transaction of the payment
    whose type is that of the operation (Charge for refund, Authorization
    for the other two); and if the payment has no such transaction the
    handler makes no call and returns the error actions with the message
    'The payment has no suitable transaction'. *)
Theorem missing_transactionId_is_derived :
  forall op pwt log text cls props,
    payment_field (payment pwt) (op_field op) = Some text ->
    text <> "" ->
    JSON_parse text = Some (VObj cls props) ->
    nullish (get (VObj cls props) "transactionId") = true ->
    match transaction pwt with
    | Some t =>
        exists amount,
          fst (op_handler op pwt log)
          = (log ++ [op_call op (optional_string (tx_interactionId t)) amount])%list
    | None =>
        match last_of_type (op_type op)
                           match payment pwt with
                           | Some p => transactions p
                           | None => []
                           end with
        | Some t =>
            exists amount,
              fst (op_handler op pwt log)
              = (log ++ [op_call op (optional_string (tx_interactionId t))
                                 amount])%list
        | None =>
            op_handler op pwt log
            = (log,
               Returned
                 [ set_field_action VUndefined (op_name op ++ "Response")
                     (JSON_stringify
                        (obj [ ("success", VBool false);
                               ("message",
                                VStr "The payment has no suitable transaction") ]));
                   set_field_action VUndefined (op_field op) VNull ])
        end
    end.
Proof.
  intros op pwt log text cls props Hfield Htext Hparse Hmissing.
  assert (Hpop : populated (payment_field (payment pwt) (op_field op)) = true)
    by (rewrite Hfield; now apply populated_text).
  pose proof (parseRequest_derives pwt (op_field op) (op_type op)
                                   Hfield Htext Hparse Hmissing) as Hreq.
  rewrite findSuitableTransactionId_last in Hreq.
  assert (Hcall : forall t,
             parseRequest pwt (op_field op) (op_type op)
             = Returned (VObj cls (assoc_set props "transactionId"
                                     (optional_string (tx_interactionId t)))) ->
             exists amount,
               fst (op_handler op pwt log)
               = (log ++ [op_call op (optional_string (tx_interactionId t))
                                  amount])%list).
  { intros t Hr. eexists. rewrite (op_handler_call op pwt log Hpop Hr).
    unfold cleaned. cbn [typeof_object].
    rewrite (removeEmptyProperties_keeps cls _ "transactionId"
               (assoc_get_set_same _ _ _) (optional_string_primitive _)).
    reflexivity. }
  destruct (transaction pwt) as [t|] eqn:Et; [now apply Hcall|].
  destruct (last_of_type _ _) as [t|]; [now apply Hcall|].
  rewrite op_handler_unfold, transactionOperation_run, Hreq by assumption.
  cbn [outcome_bind]. unfold event_transaction_id. rewrite Et.
  now rewrite <- op_request_field.
Qed.

Lemma get_obj props k :
  get (obj props) k
  = match assoc_get props k with
    | Some x => x
    | None => VUndefined
    end.
Proof. reflexivity. Qed.









End PaymentProperties.

(* ================================================================== *)
(** ** The customer controller, and the request fields as plain strings *)
(* ================================================================== *)

Section CustomerProperties.
Context `{JsRuntime} `{ConnectorParts} `{Braintree}.





Lemma update_create_resolves customer updateActions log :
  exists log' updateActions',
    update_create customer updateActions log = (log', Returned updateActions').
Proof.
  unfold update_create.
  destruct (customer_field customer "createRequest") as [text|]; [|unfold ret; eauto].
  destruct (text =? ""); [unfold ret; eauto|].
  unfold try_catch, bind, lift, ret, throw, createCustomer, call_gateway.
  destruct (mapCommercetoolsCustomerToBraintreeCustomerCreateRequest _ _)
    as [request|e]; [|eauto].
  destruct (member request "id") as [id|e]; [|eauto].
  destruct (negb (truthy id)); [eauto|].
  destruct (gateway_reply log _) as [response|e]; [|eauto].
  destruct (handleCustomerResponse "create" response customer); eauto.
Qed.




(** C10.  customerController invoked with 'Create' resolves with undefined,
    makes no gateway call and produces no update actions; invoked with an
    action other than 'Create' and 'Update' it throws a CustomError with
    status code 500. *)
Theorem customerController_create_and_unknown_action :
  forall resource log,
    customerController "Create" resource log = (log, Returned None)
    /\ (forall action,
          action <> "Create" -> action <> "Update" ->
          exists message,
            customerController action resource log
            = (log, Threw (CustomError 500 message))).
Proof.
  intros resource log. split; [reflexivity|].
  intros action Hcreate Hupdate. unfold customerController.
  apply String.eqb_neq in Hcreate, Hupdate. rewrite Hcreate, Hupdate.
  eexists. reflexivity.
Qed.

End CustomerProperties.

(* ================================================================== *)
(** ** The handlers at concrete events *)
(* ================================================================== *)

Section Concrete.
Import Sample.

(** C1, as stated, at a getClientTokenRequest that is not JSON: the field
    is populated, and the handler throws the SyntaxError of JSON.parse; it
    returns no list of actions, so none that would clear the field. *)
Lemma getClientToken_not_json_returns_no_actions :
  populated (payment_field (Some (payment_with "getClientTokenRequest" not_json))
                           "getClientTokenRequest") = true
  /\ @handleGetClientTokenRequest runtime parts up
       (Some (payment_with "getClientTokenRequest" not_json)) []
     = ([], Threw (RuntimeError (SyntaxError_message not_json)))
  /\ ~ (exists log' updateActions,
           @handleGetClientTokenRequest runtime parts up
             (Some (payment_with "getClientTokenRequest" not_json)) []
           = (log', Returned updateActions)
           /\ In (set_field_action VUndefined "getClientTokenRequest" VNull)
                 updateActions).
Proof.
  split; [reflexivity|]. split; [reflexivity|].
  intros (log' & updateActions & Hrun & _). discriminate Hrun.
Qed.

Lemma request_field_is_cleared_witness :
  (exists log' updateActions,
      @op_handler runtime parts up OpRefund (event "refundRequest" "{}" None) []
      = (log', Returned updateActions)
      /\ In (set_field_action VUndefined "refundRequest" VNull) updateActions)
  /\ (exists log' updateActions,
         @handleTransactionSaleRequest runtime parts down
           (Some (payment_with "transactionSaleRequest" not_json)) []
         = (log', Returned updateActions)
         /\ In (set_field_action VUndefined "transactionSaleRequest" VNull)
               updateActions)
  /\ (exists log' updateActions,
         @handleGetClientTokenRequest runtime parts up
           (Some (payment_with "getClientTokenRequest" "{}")) []
         = (log', Returned updateActions)
         /\ In (set_field_action VUndefined "getClientTokenRequest" VNull)
               updateActions).
Proof.
  split; [|split].
  - apply (proj1 (@request_field_is_cleared runtime parts up)
                 OpRefund (event "refundRequest" "{}" None) []).
    reflexivity.
  - apply (proj1 (proj2 (@request_field_is_cleared runtime parts down))
                 (payment_with "transactionSaleRequest" not_json) []).
    reflexivity.
  - apply (proj2 (proj2 (@request_field_is_cleared runtime parts up))
                 (Some (payment_with "getClientTokenRequest" "{}")) []
                 "{}" (obj [])).
    + reflexivity.
    + discriminate.
    + reflexivity.
Defined.

Lemma failure_returns_the_two_error_actions_witness :
  (exists log',
      @op_handler runtime parts down OpVoid
        (event "voidRequest" not_json (Some charge)) []
      = (log',
         Returned
           [ set_field_action (VStr "t1") "voidResponse"
               (JSON_stringify
                  (obj [ ("success", VBool false);
                         ("message", VStr "gateway unavailable") ]));
             set_field_action (VStr "t1") "voidRequest" VNull ]))
  /\ (exists log',
         @handleTransactionSaleRequest runtime parts up
           (Some {| payment_custom :=
                      Some {| fields := [ ("transactionSaleRequest", not_json) ] |};
                    amountPlanned := None;
                    transactions := [];
                    interfaceId := None |}) []
         = (log',
            Returned
              [ set_field_action VUndefined "transactionSaleResponse"
                  (JSON_stringify
                     (obj [ ("success", VBool false);
                            ("message", VStr "amountPlanned is missing") ]));
                set_field_action VUndefined "transactionSaleRequest" VNull ])).
Proof.
  split.
  - apply (proj1 (@failure_returns_the_two_error_actions runtime parts down)
                 OpVoid (event "voidRequest" not_json (Some charge)) []
                 (RuntimeError "gateway unavailable")).
    + reflexivity.
    + right. exists (obj [ ("transactionId", VStr not_json) ]).
      split; reflexivity.
  - apply (proj1 (proj2 (@failure_returns_the_two_error_actions runtime parts up))
                 _ [] (CustomError 500 "amountPlanned is missing")).
    + reflexivity.
    + left. reflexivity.
Defined.

Lemma unpopulated_field_no_actions_no_call_witness :
  @op_handler runtime parts up OpSubmitForSettlement
    (event "refundRequest" "{}" None) []
  = ([], Returned [])
  /\ @handleTransactionSaleRequest runtime parts up None [] = ([], Returned [])
  /\ @handleGetClientTokenRequest runtime parts up
       (Some (payment_with "refundRequest" "{}")) []
     = ([], Returned []).
Proof.
  split; [|split].
  - apply (proj1 (@unpopulated_field_no_actions_no_call runtime parts up)).
    reflexivity.
  - apply (proj1 (proj2 (@unpopulated_field_no_actions_no_call runtime parts up))).
    reflexivity.
  - apply (proj2 (proj2 (@unpopulated_field_no_actions_no_call runtime parts up))).
    reflexivity.
Defined.



(** C5, as stated, at a refundRequest that is the JSON text of a number:
    the parsed request carries no transactionId and the payment has a
    Charge, whose interactionId is found; yet the handler makes no gateway
    call and returns the two error actions, with the message of the
    TypeError that the assignment of the id to a number raises. *)
Lemma number_request_derives_no_transactionId :
  @JSON_parse Sample3.runtime "5" = Some (VNum 5)
  /\ get (VNum 5) "transactionId" = VUndefined
  /\ @findSuitableTransactionId Sample3.runtime (event "refundRequest" "5" None) Charge
     = Returned (VStr "bt0")
  /\ @op_handler Sample3.runtime parts up OpRefund (event "refundRequest" "5" None) []
     = ([],
        Returned
          (@error_actions Sample3.runtime VUndefined "refund"
             (@TypeError_message Sample3.runtime (VNum 5) "transactionId"))).
Proof. repeat split. Qed.

Lemma missing_transactionId_is_derived_witness :
  (exists amount,
      fst (@op_handler runtime parts up OpSubmitForSettlement
             {| payment := Some (Sample3.payment_of 1000 2
                                   "submitForSettlementRequest" "{}");
                transaction := None |} [])
      = [ CallSubmitForSettlement (VStr "bt-b") amount ])
  /\ (exists amount,
         fst (@op_handler runtime parts up OpRefund
                {| payment := Some (Sample3.payment_of 1000 2 "refundRequest" "{}");
                   transaction := Some (Sample2.authorization "t0" "bt-a") |} [])
         = [ CallRefund (VStr "bt-a") amount ]).
Proof.
  split.
  - apply (@missing_transactionId_is_derived runtime parts up OpSubmitForSettlement
             {| payment := Some (Sample3.payment_of 1000 2
                                   "submitForSettlementRequest" "{}");
                transaction := None |} [] "{}" PlainObject []).
    + reflexivity.
    + discriminate.
    + reflexivity.
    + reflexivity.
  - apply (@missing_transactionId_is_derived runtime parts up OpRefund
             {| payment := Some (Sample3.payment_of 1000 2 "refundRequest" "{}");
                transaction := Some (Sample2.authorization "t0" "bt-a") |}
             [] "{}" PlainObject []).
    + reflexivity.
    + discriminate.
    + reflexivity.
    + reflexivity.
Defined.


(** Amounts as an engine prints them whose Math.pow returns the nearest
    double. *)
Lemma amount_strings_of_the_sample_engine :
  map (fun m => @amount_string runtime
                  {| centAmount := fst m; fractionDigits := snd m;
                     currencyCode := "EUR" |})
      [ (1000, 2); (1050, 2); (35, 2); (1999, 2); (1234, 3); (1500, 0);
        (5, 7); (0, 2) ]%Z
  = [ "10"; "10.5"; "0.35000000000000003"; "19.990000000000002"; "1.234";
      "1500"; "5e-7"; "0" ].
Proof. vm_compute. reflexivity. Qed.


Lemma custom_field_actions_target_the_event_transaction_witness :
  exists log' updateActions,
    @op_handler runtime parts up OpRefund
      (event "refundRequest" "{}" (Some charge)) []
    = (log', Returned updateActions)
    /\ (exists a, In a updateActions /\ sets_custom_field a = true)
    /\ (forall a,
          In a updateActions -> sets_custom_field a = true ->
          get a "action" = VStr "setTransactionCustomField"
          /\ get a "transactionId" = VStr "t1").
Proof.
  apply (@custom_field_actions_target_the_event_transaction runtime parts up
           OpRefund (event "refundRequest" "{}" (Some charge)) []).
  - reflexivity.
  - intros t Ht. injection Ht as <-. discriminate.
Defined.

Lemma customerController_create_and_unknown_action_witness :
  @customerController runtime parts up "Create" {| obj_ := None |} []
  = ([], Returned None)
  /\ exists message,
       @customerController runtime parts up "Delete" {| obj_ := None |} []
       = ([], Threw (CustomError 500 message)).
Proof.
  destruct (@customerController_create_and_unknown_action runtime parts up
              {| obj_ := None |} []) as [Hcreate Hother].
  split; [exact Hcreate|].
  apply (Hother "Delete"); discriminate.
Defined.

(** C7 on the code.  A customer whose findRequest and createRequest are
    both populated, with a gateway that finds the customer and refuses to
    create it: the find block produces its actions, among them the one that
    clears findRequest; the controller resolves with status 200 and with
    the two error actions of the create block only, the actions of the find
    block being dropped. *)
Theorem update_create_failure_drops_the_find_actions :
  exists findActions,
    @update_find runtime parts no_create
      (customer_with [ ("findRequest", "{}"); ("createRequest", "{}") ]) [] []
    = ([ CallFindCustomer (VStr "c1") ], Returned findActions)
    /\ In (set_field_action VUndefined "findRequest" VNull) findActions
    /\ @customerController runtime parts no_create "Update"
         {| obj_ := Some (customer_with [ ("findRequest", "{}");
                                          ("createRequest", "{}") ]) |} []
       = ([ CallFindCustomer (VStr "c1");
            CallCreateCustomer (obj [ ("id", VStr "c1") ]) ],
          Returned
            (Some {| statusCode := 200;
                     actions :=
                       handleError "create"
                         (RuntimeError "Customer ID has already been taken.")
                         VUndefined |}))
    /\ ~ In (set_field_action VUndefined "findRequest" VNull)
            (handleError "create"
               (RuntimeError "Customer ID has already been taken.")
               VUndefined).
Proof.
  eexists. split; [reflexivity|]. split; [right; left; reflexivity|].
  split; [reflexivity|].
  intros [Hin|[Hin|[]]]; discriminate Hin.
Qed.

End Concrete.

(* ================================================================== *)
(** ** Further properties of removeEmptyProperties *)
(* ================================================================== *)

Lemma visit_property_vanishes v :
  forall k,
    visit_property removeEmptyProperties (k, v)
    = if vanishes v then [] else [(k, removeEmptyProperties v)].
Proof.
  induction v as [| | | | |cls props IH] using value_props_ind;
    intros k; try reflexivity.
  unfold visit_property.
  enough (Object_keys_empty (removeEmptyProperties (VObj cls props))
          = vanishes (VObj cls props)) as -> by reflexivity.
  cbn [removeEmptyProperties vanishes Object_keys_empty own_props].
  induction IH as [|[k' v] rest Hv _ IHrest]; [reflexivity|].
  cbn [snd] in Hv. cbn [flat_map forallb snd]. rewrite (Hv k').
  destruct (vanishes v); [exact IHrest | reflexivity].
Qed.

Lemma flat_map_visit_filter_map props :
  flat_map (visit_property removeEmptyProperties) props
  = map (fun kv => (fst kv, removeEmptyProperties (snd kv)))
        (filter (fun kv => negb (vanishes (snd kv))) props).
Proof.
  induction props as [|[k v] rest IH]; [reflexivity|].
  cbn [flat_map filter snd]. rewrite visit_property_vanishes, IH.
  now destruct (vanishes v).
Qed.

(** X5.  removeEmptyProperties removes exactly the properties whose value is
    null or an object (or array) that is emptied in turn, and cleans the
    values of the others in place: the keys that stay keep their order. *)
Theorem removeEmptyProperties_filters_then_cleans :
  forall cls props,
    removeEmptyProperties (VObj cls props)
    = VObj cls
        (map (fun kv => (fst kv, removeEmptyProperties (snd kv)))
             (filter (fun kv => negb (vanishes (snd kv))) props)).
Proof.
  intros cls props. cbn [removeEmptyProperties].
  now rewrite flat_map_visit_filter_map.
Qed.

Lemma clean_value_unchanged v :
  no_empty_properties v = true -> removeEmptyProperties v = v.
Proof.
  induction v as [| | | | |cls props IH] using value_props_ind; try reflexivity.
  cbn [no_empty_properties removeEmptyProperties]. intros Hclean. f_equal.
  induction IH as [|[k v] rest Hv _ IHrest]; [reflexivity|].
  cbn [forallb snd] in Hclean, Hv.
  apply andb_true_iff in Hclean. destruct Hclean as [Hhead Hrest].
  apply andb_true_iff in Hhead. destruct Hhead as [Hhead Hsub].
  apply andb_true_iff in Hhead. destruct Hhead as [Hnull Hempty].
  cbn [flat_map]. rewrite (IHrest Hrest).
  destruct v as [| | | | |c ps]; try reflexivity; [discriminate|].
  unfold visit_property. rewrite (Hv Hsub).
  destruct ps; [discriminate | reflexivity].
Qed.

(** X4.  The values removeEmptyProperties leaves unchanged are exactly those
    that hold, at every depth, no null property and no property that is an
    object without keys. *)
Theorem removeEmptyProperties_fixes_exactly_the_clean :
  forall v, removeEmptyProperties v = v <-> no_empty_properties v = true.
Proof.
  intros v. split.
  - intros Hfix. rewrite <- Hfix. apply removeEmptyProperties_clean.
  - apply clean_value_unchanged.
Qed.

(* ================================================================== *)
(** ** Further properties of the payment handlers *)
(* ================================================================== *)

Section FurtherPaymentProperties.
Context `{JsRuntime} `{ConnectorParts} `{Braintree}.

Lemma TransactionType_eqb_eq a b : TransactionType_eqb a b = true <-> a = b.
Proof. destruct a, b; simpl; split; congruence. Qed.

Lemma last_of_type_none type txs :
  (forall u, In u txs -> tx_type u <> type) -> last_of_type type txs = None.
Proof.
  induction txs as [|t rest IH]; intros Hnone; [reflexivity|].
  cbn [last_of_type]. rewrite IH by (intros u Hu; apply Hnone; now right).
  destruct (TransactionType_eqb (tx_type t) type) eqn:E; [|reflexivity].
  apply TransactionType_eqb_eq in E. now destruct (Hnone t (or_introl eq_refl)).
Qed.

Lemma last_of_type_split type before t after :
  tx_type t = type ->
  (forall u, In u after -> tx_type u <> type) ->
  last_of_type type (before ++ t :: after)%list = Some t.
Proof.
  intros Ht Hafter. induction before as [|b rest IH].
  - cbn [app last_of_type]. rewrite (@last_of_type_none _ _ Hafter).
    apply TransactionType_eqb_eq in Ht. now rewrite Ht.
  - cbn [app last_of_type]. now rewrite IH.
Qed.

(** X3.  Without a transaction on the event, findSuitableTransactionId
    returns the interactionId of the transaction of the given type that no
    transaction of that type follows in payment.transactions (undefined when
    that transaction has none), and throws CustomError 500 'The payment has
    no suitable transaction' when the payment has no transaction of the
    type. *)
Theorem findSuitableTransactionId_takes_the_last_of_the_type :
  forall pwt type p,
    transaction pwt = None ->
    payment pwt = Some p ->
    (forall before t after,
        transactions p = (before ++ t :: after)%list ->
        tx_type t = type ->
        (forall u, In u after -> tx_type u <> type) ->
        findSuitableTransactionId pwt type
        = Returned (optional_string (tx_interactionId t)))
    /\ ((forall u, In u (transactions p) -> tx_type u <> type) ->
        findSuitableTransactionId pwt type
        = Threw (CustomError 500 "The payment has no suitable transaction")).
Proof.
  intros pwt type p Hevent Hpayment.
  rewrite findSuitableTransactionId_last, Hevent, Hpayment. split.
  - intros before t after Htxs Ht Hafter.
    now rewrite Htxs, (@last_of_type_split _ _ _ _ Ht Hafter).
  - intros Hnone. now rewrite (@last_of_type_none _ _ Hnone).
Qed.

Lemma assoc_set_same_value {A} (ps : list (string * A)) k x :
  assoc_get ps k = Some x -> assoc_set ps k x = ps.
Proof.
  induction ps as [|[k' y] rest IH]; simpl; [discriminate|].
  destruct (k' =? k) eqn:E.
  - intros Hx. injection Hx as ->. apply String.eqb_eq in E. now subst.
  - intros Hx. now rewrite IH.
Qed.

Lemma cleaned_nullish x : nullish (cleaned x) = nullish x.
Proof. now destruct x. Qed.

Lemma cleaned_of_nullish x : nullish x = true -> cleaned x = x.
Proof. now destruct x. Qed.

Lemma handleError_error_actions requestName e transactionId :
  handleError requestName e transactionId
  = error_actions transactionId requestName (errorMessage e).
Proof. reflexivity. Qed.

(** X1.  For refund, submitForSettlement and voidTransaction, a request that
    parses to an object carrying a string transactionId is sent to the
    gateway with that id, whatever transaction the event includes and
    whatever transactions the payment has; the amount sent is the amount
    property of the cleaned request. *)
Theorem explicit_transactionId_is_used :
  forall op pwt log text cls props id,
    payment_field (payment pwt) (op_field op) = Some text ->
    text <> "" ->
    JSON_parse text = Some (VObj cls props) ->
    assoc_get props "transactionId" = Some (VStr id) ->
    fst (op_handler op pwt log)
    = (log ++ [op_call op (VStr id)
                       (get (removeEmptyProperties (VObj cls props)) "amount")])%list.
Proof.
  intros op pwt log text cls props id Hfield Htext Hparse Hid.
  assert (Hpop : populated (payment_field (payment pwt) (op_field op)) = true)
    by (rewrite Hfield; now apply populated_text).
  rewrite (op_handler_call op pwt log (request := VObj cls props)); [|assumption|].
  - unfold cleaned, opt_get. cbn [typeof_object nullish].
    now rewrite (@removeEmptyProperties_keeps cls props "transactionId" _ Hid eq_refl).
  - unfold parseRequest. rewrite (request_field_of_payment _ _ Hfield).
    apply String.eqb_neq in Htext. rewrite Htext.
    unfold parse_or, member. rewrite Hparse.
    cbn [nullish get outcome_bind]. rewrite Hid.
    cbn [outcome_bind nullish assign].
    now rewrite (@assoc_set_same_value _ _ _ _ Hid).
Qed.

(** X2.  A request field whose text is the JSON null is not a request: refund,
    submitForSettlement and voidTransaction, and handleTransactionSaleRequest
    for a payment with an amountPlanned, make no gateway call and return the
    two error actions carrying the TypeError raised on reading a property of
    null. *)
Theorem null_request_fails_before_the_gateway :
  forall text,
    text <> "" ->
    JSON_parse text = Some VNull ->
    (forall op pwt log,
        payment_field (payment pwt) (op_field op) = Some text ->
        op_handler op pwt log
        = (log,
           Returned (error_actions (event_transaction_id pwt) (op_name op)
                                   (TypeError_message VNull "transactionId"))))
    /\ (forall payment money log,
          custom_field (payment_custom payment) "transactionSaleRequest" = Some text ->
          amountPlanned payment = Some money ->
          handleTransactionSaleRequest (Some payment) log
          = (log,
             Returned (error_actions VUndefined "transactionSale"
                                     (TypeError_message VNull "customer")))).
Proof.
  intros text Htext Hparse. split.
  - intros op pwt log Hfield.
    assert (Hpop : populated (payment_field (payment pwt) (op_field op)) = true)
      by (rewrite Hfield; now apply populated_text).
    rewrite op_handler_unfold, transactionOperation_run by assumption.
    unfold parseRequest. rewrite (request_field_of_payment _ _ Hfield).
    apply String.eqb_neq in Htext. rewrite Htext.
    unfold parse_or, member. rewrite Hparse. reflexivity.
  - intros payment money log Hfield Hmoney.
    assert (Hpop : populated (custom_field (payment_custom payment)
                                           "transactionSaleRequest") = true)
      by (rewrite Hfield; now apply populated_text).
    rewrite handleTransactionSaleRequest_run by assumption.
    unfold parseTransactionSaleRequest.
    rewrite Hfield, (populated_text Htext), Hmoney. cbn [negb].
    unfold parse_or, member. rewrite Hparse. reflexivity.
Qed.

Lemma addTransaction_of_response typeOf response amountPlanned :
  nullish response = false ->
  addTransaction typeOf response amountPlanned
  = (type <- typeOf response;
     Returned
       (obj [ ("action", VStr "addTransaction");
              ("transaction",
               obj [ ("type", type);
                     ("amount",
                      obj [ ("centAmount",
                             mapBraintreeMoneyToCommercetoolsMoney
                               (get response "amount")
                               (fractionDigits_of amountPlanned));
                            ("currencyCode", currencyCode_of amountPlanned) ]);
                     ("interactionId", get response "id");
                     ("timestamp", get response "updatedAt");
                     ("state",
                      mapBraintreeStatusToCommercetoolsTransactionState
                        (get response "status")) ]) ]))%outcome.
Proof.
  intros Hresponse. unfold addTransaction, member. rewrite Hresponse.
  now destruct (typeOf response).
Qed.

Lemma updatePaymentFields_of_response response :
  nullish response = false ->
  updatePaymentFields response
  = Returned
      [ obj [ ("action", VStr "setStatusInterfaceCode");
              ("interfaceCode", get response "status") ];
        obj [ ("action", VStr "setStatusInterfaceText");
              ("interfaceText", get response "status") ];
        obj [ ("action", VStr "setMethodInfoMethod");
              ("method",
               VStr (ToString (get response "paymentInstrumentType")
                     ++ (if truthy (getPaymentMethodHint response)
                         then " (" ++ ToString (getPaymentMethodHint response) ++ ")"
                         else ""))) ] ].
Proof.
  intros Hresponse. unfold updatePaymentFields, member. now rewrite Hresponse.
Qed.

(** X7.  When the request parses and the gateway resolves with a value that
    is neither null nor undefined, refund, submitForSettlement and
    voidTransaction make that one call and return eight actions in this
    order: the interaction logging the cleaned request, the response write,
    the interaction logging the cleaned response, the clearing of the request
    field, the addTransaction (of type Refund, Charge or CancelAuthorization)
    built from the cleaned response and amountPlanned, and the three
    payment-status actions. *)
Theorem transaction_handler_success_actions :
  forall op pwt log request response,
    populated (payment_field (payment pwt) (op_field op)) = true ->
    parseRequest pwt (op_field op) (op_type op) = Returned request ->
    gateway_reply log
      (op_call op (get (cleaned request) "transactionId")
               (opt_get (cleaned request) "amount")) = Returned response ->
    nullish response = false ->
    op_handler op pwt log
    = ((log ++ [op_call op (get (cleaned request) "transactionId")
                        (opt_get (cleaned request) "amount")])%list,
       Returned
         [ interface_interaction BRAINTREE_PAYMENT_INTERACTION_TYPE_KEY
             (op_field op) (stringifyData (cleaned request)) getCurrentTimestamp;
           set_field_action (event_transaction_id pwt) (op_name op ++ "Response")
             (stringifyData (cleaned response));
           interface_interaction BRAINTREE_PAYMENT_INTERACTION_TYPE_KEY
             (op_name op ++ "Response") (stringifyData (cleaned response))
             getCurrentTimestamp;
           set_field_action (event_transaction_id pwt) (op_field op) VNull;
           obj [ ("action", VStr "addTransaction");
                 ("transaction",
                  obj [ ("type", VStr (TransactionType_name (op_added op)));
                        ("amount",
                         obj [ ("centAmount",
                                mapBraintreeMoneyToCommercetoolsMoney
                                  (get (cleaned response) "amount")
                                  (fractionDigits_of
                                     match payment pwt with
                                     | Some p => amountPlanned p
                                     | None => None
                                     end));
                               ("currencyCode",
                                currencyCode_of
                                  match payment pwt with
                                  | Some p => amountPlanned p
                                  | None => None
                                  end) ]);
                        ("interactionId", get (cleaned response) "id");
                        ("timestamp", get (cleaned response) "updatedAt");
                        ("state",
                         mapBraintreeStatusToCommercetoolsTransactionState
                           (get (cleaned response) "status")) ]) ];
           obj [ ("action", VStr "setStatusInterfaceCode");
                 ("interfaceCode", get (cleaned response) "status") ];
           obj [ ("action", VStr "setStatusInterfaceText");
                 ("interfaceText", get (cleaned response) "status") ];
           obj [ ("action", VStr "setMethodInfoMethod");
                 ("method",
                  VStr (ToString (get (cleaned response) "paymentInstrumentType")
                        ++ (if truthy (getPaymentMethodHint (cleaned response))
                            then " (" ++ ToString (getPaymentMethodHint
                                                     (cleaned response)) ++ ")"
                            else ""))) ] ]).
Proof.
  intros op pwt log request response Hfield Hparse Hreply Hresponse.
  rewrite op_handler_unfold, transactionOperation_run, Hparse by assumption.
  unfold call_gateway. rewrite Hreply.
  rewrite addTransaction_of_response, updatePaymentFields_of_response
    by now rewrite cleaned_nullish.
  cbn [outcome_bind]. rewrite <- op_request_field. reflexivity.
Qed.

(** X9.  When the gateway resolves with null or undefined, the handlers have
    made their call and return the two error actions only, carrying the
    TypeError raised on the first property read of the response: amount for
    refund, submitForSettlement and voidTransaction, status for
    handleTransactionSaleRequest. *)
Theorem empty_gateway_response_gives_the_error_actions :
  (forall op pwt log request response,
      populated (payment_field (payment pwt) (op_field op)) = true ->
      parseRequest pwt (op_field op) (op_type op) = Returned request ->
      gateway_reply log
        (op_call op (get (cleaned request) "transactionId")
                 (opt_get (cleaned request) "amount")) = Returned response ->
      nullish response = true ->
      op_handler op pwt log
      = ((log ++ [op_call op (get (cleaned request) "transactionId")
                          (opt_get (cleaned request) "amount")])%list,
         Returned (error_actions (event_transaction_id pwt) (op_name op)
                                 (TypeError_message response "amount"))))
  /\ (forall payment log request response,
        populated (custom_field (payment_custom payment)
                                "transactionSaleRequest") = true ->
        parseTransactionSaleRequest payment = Returned request ->
        gateway_reply log (CallTransactionSale (cleaned request))
        = Returned response ->
        nullish response = true ->
        handleTransactionSaleRequest (Some payment) log
        = ((log ++ [CallTransactionSale (cleaned request)])%list,
           Returned (error_actions VUndefined "transactionSale"
                                   (TypeError_message response "status")))).
Proof.
  split.
  - intros op pwt log request response Hfield Hparse Hreply Hresponse.
    rewrite op_handler_unfold, transactionOperation_run, Hparse by assumption.
    unfold call_gateway. rewrite Hreply, (cleaned_of_nullish _ Hresponse).
    unfold addTransaction, member. rewrite Hresponse. reflexivity.
  - intros payment log request response Hfield Hparse Hreply Hresponse.
    rewrite handleTransactionSaleRequest_run, Hparse by assumption.
    cbv zeta. rewrite Hreply, (cleaned_of_nullish _ Hresponse).
    unfold addTransaction, member. rewrite Hresponse. reflexivity.
Qed.

(** X8.  When the request is built and the gateway resolves with a value that
    is neither null nor undefined, handleTransactionSaleRequest makes that
    one call and returns, in order, the request interaction, the response
    write, the response interaction, the clearing of transactionSaleRequest,
    the addTransaction whose type is mapped from the response status, a
    setInterfaceId with the response id exactly when the payment has no
    interfaceId yet, and the three payment-status actions. *)
Theorem transaction_sale_success_actions :
  forall payment log request response,
    populated (custom_field (payment_custom payment) "transactionSaleRequest") = true ->
    parseTransactionSaleRequest payment = Returned request ->
    gateway_reply log (CallTransactionSale (cleaned request)) = Returned response ->
    nullish response = false ->
    handleTransactionSaleRequest (Some payment) log
    = ((log ++ [CallTransactionSale (cleaned request)])%list,
       Returned
         ([ interface_interaction BRAINTREE_PAYMENT_INTERACTION_TYPE_KEY
              "transactionSaleRequest" (stringifyData (cleaned request))
              getCurrentTimestamp;
            set_field_action VUndefined "transactionSaleResponse"
              (stringifyData (cleaned response));
            interface_interaction BRAINTREE_PAYMENT_INTERACTION_TYPE_KEY
              "transactionSaleResponse" (stringifyData (cleaned response))
              getCurrentTimestamp;
            set_field_action VUndefined "transactionSaleRequest" VNull;
            obj [ ("action", VStr "addTransaction");
                  ("transaction",
                   obj [ ("type",
                          mapBraintreeStatusToCommercetoolsTransactionType
                            (get (cleaned response) "status"));
                         ("amount",
                          obj [ ("centAmount",
                                 mapBraintreeMoneyToCommercetoolsMoney
                                   (get (cleaned response) "amount")
                                   (fractionDigits_of (amountPlanned payment)));
                                ("currencyCode",
                                 currencyCode_of (amountPlanned payment)) ]);
                         ("interactionId", get (cleaned response) "id");
                         ("timestamp", get (cleaned response) "updatedAt");
                         ("state",
                          mapBraintreeStatusToCommercetoolsTransactionState
                            (get (cleaned response) "status")) ]) ] ]
          ++ (if populated (interfaceId payment) then []
              else [ obj [ ("action", VStr "setInterfaceId");
                           ("interfaceId", get (cleaned response) "id") ] ])
          ++ [ obj [ ("action", VStr "setStatusInterfaceCode");
                     ("interfaceCode", get (cleaned response) "status") ];
               obj [ ("action", VStr "setStatusInterfaceText");
                     ("interfaceText", get (cleaned response) "status") ];
               obj [ ("action", VStr "setMethodInfoMethod");
                     ("method",
                      VStr (ToString (get (cleaned response) "paymentInstrumentType")
                            ++ (if truthy (getPaymentMethodHint (cleaned response))
                                then " (" ++ ToString (getPaymentMethodHint
                                                         (cleaned response)) ++ ")"
                                else ""))) ] ])%list).
Proof.
  intros payment log request response Hfield Hparse Hreply Hresponse.
  rewrite handleTransactionSaleRequest_run, Hparse by assumption.
  cbv zeta. rewrite Hreply.
  rewrite addTransaction_of_response, updatePaymentFields_of_response
    by now rewrite cleaned_nullish.
  unfold member. rewrite cleaned_nullish, Hresponse. cbn [outcome_bind].
  now destruct (populated (interfaceId payment)).
Qed.

Lemma opt_get_of_value v k : nullish v = false -> opt_get v k = get v k.
Proof. unfold opt_get. now intros ->. Qed.

(** The request built from a field that parsed to something other than null,
    with the flag the code computes for storeInVaultOnSuccess. *)
Lemma parseTransactionSaleRequest_built payment money text :
  custom_field (payment_custom payment) "transactionSaleRequest" = Some text ->
  text <> "" ->
  amountPlanned payment = Some money ->
  nullish (parse_or text (obj [ ("paymentMethodNonce", VStr text) ])) = false ->
  parseTransactionSaleRequest payment
  = Returned
      (obj (spread
              [ ("amount",
                 VStr (amount_string money));
                ("merchantAccountId", env_or_undefined BRAINTREE_MERCHANT_ACCOUNT);
                ("channel", VStr "commercetools");
                ("options",
                 obj [ ("submitForSettlement",
                        VBool (env_is_true BRAINTREE_AUTOCAPTURE));
                       ("storeInVaultOnSuccess",
                        VBool
                          (truthy (get (parse_or text (obj [ ("paymentMethodNonce",
                                                              VStr text) ]))
                                       "customerId")
                           || truthy
                                (opt_get
                                   (get (parse_or text (obj [ ("paymentMethodNonce",
                                                               VStr text) ]))
                                        "customer")
                                   "id"))) ]) ]
              (parse_or text (obj [ ("paymentMethodNonce", VStr text) ])))).
Proof.
  intros Hfield Htext Hmoney Hparsed. unfold parseTransactionSaleRequest.
  rewrite Hfield, (populated_text Htext), Hmoney. cbn [negb].
  unfold member. rewrite Hparsed, (@opt_get_of_value _ "customerId" Hparsed).
  now destruct (truthy (get _ "customerId")).
Qed.

(** X10.  In the transaction-sale request built from a field that parsed to
    something other than null, a property the parsed request carries replaces
    the computed default of the same name as a whole.  When it carries no
    options, the options are submitForSettlement, true exactly when
    BRAINTREE_AUTOCAPTURE is the text true, and storeInVaultOnSuccess, true
    exactly when the parsed request has a truthy customerId or a customer
    with a truthy id; options it carries are taken as they are.  When it
    carries no channel the channel is commercetools, and when it carries no
    merchantAccountId that is BRAINTREE_MERCHANT_ACCOUNT, or undefined when
    the variable is unset or empty. *)
Theorem transaction_sale_request_defaults :
  forall payment money text,
    custom_field (payment_custom payment) "transactionSaleRequest" = Some text ->
    text <> "" ->
    amountPlanned payment = Some money ->
    let parsed := parse_or text (obj [ ("paymentMethodNonce", VStr text) ]) in
    nullish parsed = false ->
    exists request,
      parseTransactionSaleRequest payment = Returned request
      /\ (assoc_get (own_props parsed) "options" = None ->
          get request "options"
          = obj [ ("submitForSettlement", VBool (env_is_true BRAINTREE_AUTOCAPTURE));
                  ("storeInVaultOnSuccess",
                   VBool (truthy (get parsed "customerId")
                          || truthy (opt_get (get parsed "customer") "id"))) ])
      /\ (forall options,
            assoc_last (own_props parsed) "options" = Some options ->
            get request "options" = options)
      /\ (assoc_get (own_props parsed) "channel" = None ->
          get request "channel" = VStr "commercetools")
      /\ (assoc_get (own_props parsed) "merchantAccountId" = None ->
          get request "merchantAccountId"
          = env_or_undefined BRAINTREE_MERCHANT_ACCOUNT).
Proof.
  intros payment money text Hfield Htext Hmoney parsed Hparsed.
  eexists. split.
  { exact (parseTransactionSaleRequest_built payment Hfield Htext Hmoney Hparsed). }
  fold parsed. rewrite !get_obj. unfold spread.
  rewrite !assoc_get_assign_all.
  split; [|split; [|split]].
  - intros Hnone. now rewrite (assoc_last_none _ _ Hnone).
  - intros options Hlast. now rewrite Hlast.
  - intros Hnone. now rewrite (assoc_last_none _ _ Hnone).
  - intros Hnone. now rewrite (assoc_last_none _ _ Hnone).
Qed.

(** X11.  handleGetClientTokenRequest, for a field that parses as JSON, sends
    the gateway the cleaned object made of merchantAccountId (from
    BRAINTREE_MERCHANT_ACCOUNT) overlaid with the parsed request.  When the
    gateway resolves it returns four actions: the request interaction, the
    response write, the response interaction and the clearing of
    getClientTokenRequest; when the gateway rejects it returns the two error
    actions alone, without the request interaction.  A client token that is a
    string is written as it is, not as JSON text. *)
Theorem client_token_actions :
  forall payment log text request,
    payment_field payment "getClientTokenRequest" = Some text ->
    text <> "" ->
    JSON_parse text = Some request ->
    let sent :=
      cleaned (obj (spread [ ("merchantAccountId",
                              env_or_undefined BRAINTREE_MERCHANT_ACCOUNT) ]
                           request)) in
    (forall response,
        gateway_reply log (CallGetClientToken sent) = Returned response ->
        handleGetClientTokenRequest payment log
        = ((log ++ [CallGetClientToken sent])%list,
           Returned
             [ interface_interaction BRAINTREE_PAYMENT_INTERACTION_TYPE_KEY
                 "getClientTokenRequest" (stringifyData sent) getCurrentTimestamp;
               set_field_action VUndefined "getClientTokenResponse"
                 (stringifyData (cleaned response));
               interface_interaction BRAINTREE_PAYMENT_INTERACTION_TYPE_KEY
                 "getClientTokenResponse" (stringifyData (cleaned response))
                 getCurrentTimestamp;
               set_field_action VUndefined "getClientTokenRequest" VNull ]))
    /\ (forall e,
          gateway_reply log (CallGetClientToken sent) = Threw e ->
          handleGetClientTokenRequest payment log
          = ((log ++ [CallGetClientToken sent])%list,
             Returned (error_actions VUndefined "getClientToken" (errorMessage e))))
    /\ (forall token, stringifyData (cleaned (VStr token)) = VStr token).
Proof.
  intros payment log text request Hfield Htext Hparse sent.
  split; [|split].
  - intros response Hreply.
    rewrite (handleGetClientTokenRequest_run _ _ Hfield Htext Hparse).
    fold sent. now rewrite Hreply.
  - intros e Hreply.
    rewrite (handleGetClientTokenRequest_run _ _ Hfield Htext Hparse).
    fold sent. now rewrite Hreply.
  - reflexivity.
Qed.

Lemma spaced_text_is_truthy a b : truthy (VStr (a ++ " " ++ b)) = true.
Proof. now destruct a. Qed.

Lemma append_empty (s : string) : s ++ "" = s.
Proof. induction s as [|c s IH]; simpl; congruence. Qed.

(** X6.  In the setMethodInfoMethod action of updatePaymentFields, a
    credit_card response always gets a parenthesised hint made of the card
    type and the masked number, also when the response has no creditCard (the
    hint is then made of two undefined values); a paypal_account,
    venmo_account, android_pay_card or apple_pay_card response whose detail
    (payerEmail, username, sourceDescription) is null or undefined gets the
    instrument type alone. *)
Theorem payment_method_text :
  forall response,
    nullish response = false ->
    (get response "paymentInstrumentType" = VStr "credit_card" ->
     updatePaymentFields response
     = Returned
         [ obj [ ("action", VStr "setStatusInterfaceCode");
                 ("interfaceCode", get response "status") ];
           obj [ ("action", VStr "setStatusInterfaceText");
                 ("interfaceText", get response "status") ];
           obj [ ("action", VStr "setMethodInfoMethod");
                 ("method",
                  VStr (ToString (VStr "credit_card") ++ " ("
                        ++ ToString
                             (VStr (ToString (opt_get (opt_get response "creditCard")
                                                      "cardType")
                                    ++ " "
                                    ++ ToString (opt_get (opt_get response "creditCard")
                                                         "maskedNumber")))
                        ++ ")")) ] ])
    /\ (forall type account detail,
          In (type, account, detail)
             [ ("paypal_account", "paypalAccount", "payerEmail");
               ("venmo_account", "venmoAccount", "username");
               ("android_pay_card", "androidPayCard", "sourceDescription");
               ("apple_pay_card", "applePayCard", "sourceDescription") ] ->
          get response "paymentInstrumentType" = VStr type ->
          nullish (opt_get (opt_get response account) detail) = true ->
          updatePaymentFields response
          = Returned
              [ obj [ ("action", VStr "setStatusInterfaceCode");
                      ("interfaceCode", get response "status") ];
                obj [ ("action", VStr "setStatusInterfaceText");
                      ("interfaceText", get response "status") ];
                obj [ ("action", VStr "setMethodInfoMethod");
                      ("method", VStr (ToString (VStr type))) ] ]).
Proof.
  intros response Hresponse. split.
  - intros Htype. rewrite updatePaymentFields_of_response by assumption.
    unfold getPaymentMethodHint. rewrite Htype.
    now rewrite spaced_text_is_truthy.
  - intros type account detail Hin Htype Hdetail.
    rewrite updatePaymentFields_of_response by assumption.
    unfold getPaymentMethodHint. rewrite Htype.
    destruct Hin as [Hin|[Hin|[Hin|[Hin|[]]]]];
      injection Hin as <- <- <-; rewrite Hdetail; cbn [truthy String.eqb negb];
      now rewrite append_empty.
Qed.

End FurtherPaymentProperties.

(* ================================================================== *)
(** ** Further properties of the customer controller *)
(* ================================================================== *)

Section FurtherCustomerProperties.
Context `{JsRuntime} `{ConnectorParts} `{Braintree}.

Lemma update_vault_resolves customer updateActions log :
  exists log' updateActions',
    update_vault customer updateActions log = (log', Returned updateActions').
Proof.
  unfold update_vault.
  destruct (negb (populated (customer_field customer "vaultRequest")));
    [unfold ret; eauto|].
  unfold try_catch, bind, lift, ret, createCustomer, createPaymentMethod,
    call_gateway.
  destruct (parseVaultRequest customer) as [request|e]; [|eauto].
  destruct (negb (populated (customer_field customer "customerId")));
    (destruct (gateway_reply log _) as [response|e]; [|eauto]);
    destruct (handleCustomerResponse "vault" response customer); eauto.
Qed.

Lemma update_find_resolves customer updateActions log :
  populated (customer_field customer "findRequest") = false
  \/ (exists text request,
         customer_field customer "findRequest" = Some text
         /\ JSON_parse text = Some request) ->
  exists log' updateActions',
    update_find customer updateActions log = (log', Returned updateActions').
Proof.
  intros Hfind. unfold update_find.
  destruct (customer_field customer "findRequest") as [text|] eqn:Efield;
    [|unfold ret; eauto].
  destruct (text =? "") eqn:Etext; [unfold ret; eauto|].
  destruct Hfind as [Hempty|(text' & request & Htext' & Hparse)].
  - simpl in Hempty. rewrite Etext in Hempty. discriminate.
  - injection Htext' as <-. rewrite Hparse.
    unfold try_catch, bind, lift, ret, findCustomer, call_gateway.
    destruct (gateway_reply log _) as [response|e]; [|eauto].
    destruct (handleCustomerResponse "find" response customer); eauto.
Qed.

(** X12.  update resolves with status code 200 and a list of actions, or
    throws a CustomError with status 400 whose message wraps the stack of the
    error caught; it never resolves with undefined.  It throws, before any
    gateway call, when the resource has no obj and when findRequest is
    populated with text that is not JSON; in every other case it resolves
    with 200, whatever the gateway answers. *)
Theorem update_resolves_with_200_or_throws_400 :
  forall resource log,
    (obj_ resource = None ->
     update resource log
     = (log,
        Threw (CustomError 400
                 ("Internal server error on CustomerController: "
                    ++ error_stack (CustomError 400 "customer obj is missing")))))
    /\ (forall customer text,
          obj_ resource = Some customer ->
          customer_field customer "findRequest" = Some text ->
          text <> "" ->
          JSON_parse text = None ->
          update resource log
          = (log,
             Threw (CustomError 400
                      ("Internal server error on CustomerController: "
                         ++ error_stack (RuntimeError (SyntaxError_message text))))))
    /\ (forall customer,
          obj_ resource = Some customer ->
          populated (customer_field customer "findRequest") = false
          \/ (exists text request,
                 customer_field customer "findRequest" = Some text
                 /\ JSON_parse text = Some request) ->
          exists log' updateActions,
            update resource log
            = (log',
               Returned (Some {| statusCode := 200; actions := updateActions |}))).
Proof.
  intros resource log. split; [|split].
  - intros Hobj. unfold update. now rewrite Hobj.
  - intros customer text Hobj Hfield Htext Hparse.
    unfold update. rewrite Hobj.
    unfold try_catch, bind, update_find. rewrite Hfield.
    apply String.eqb_neq in Htext. now rewrite Htext, Hparse.
  - intros customer Hobj Hfind. unfold update. rewrite Hobj.
    unfold try_catch, bind.
    destruct (update_find_resolves customer [] log Hfind)
      as (log1 & actions1 & ->).
    destruct (update_create_resolves customer actions1 log1)
      as (log2 & actions2 & ->).
    destruct (update_vault_resolves customer actions2 log2)
      as (log3 & actions3 & ->).
    unfold ret. eauto.
Qed.

(** X13.  The createRequest block of update makes no gateway call when the
    request mapped from the customer cannot be used: when the mapping throws,
    and when the mapped request has no truthy id, in which case the error is
    'field customerId is missing'.  It then returns the two error actions of
    create in place of the actions gathered so far. *)
Theorem create_without_id_makes_no_call :
  forall customer text updateActions log,
    customer_field customer "createRequest" = Some text ->
    text <> "" ->
    (forall e,
        mapCommercetoolsCustomerToBraintreeCustomerCreateRequest customer (VStr text)
        = Threw e ->
        update_create customer updateActions log
        = (log, Returned (error_actions VUndefined "create" (errorMessage e))))
    /\ (forall request,
          mapCommercetoolsCustomerToBraintreeCustomerCreateRequest customer (VStr text)
          = Returned request ->
          nullish request = false ->
          truthy (get request "id") = false ->
          update_create customer updateActions log
          = (log,
             Returned (error_actions VUndefined "create"
                                     "field customerId is missing"))).
Proof.
  intros customer text updateActions log Hfield Htext.
  apply String.eqb_neq in Htext.
  split.
  - intros e Hmap. unfold update_create. rewrite Hfield, Htext.
    unfold try_catch, bind, lift. now rewrite Hmap.
  - intros request Hmap Hrequest Hid. unfold update_create.
    rewrite Hfield, Htext.
    unfold try_catch, bind, lift, member. rewrite Hmap, Hrequest, Hid.
    reflexivity.
Qed.

Lemma get_assoc_set cls props k' x k :
  get (VObj cls (assoc_set props k' x)) k
  = if k' =? k then x else get (VObj cls props) k.
Proof. unfold get. rewrite assoc_get_set. now destruct (k' =? k). Qed.

Lemma literal_keys :
  ("customerId" =? "options") = false /\ ("options" =? "customerId") = false.
Proof. split; reflexivity. Qed.

Lemma neq_eqb (a b : string) : b <> a -> (a =? b) = false.
Proof. intros Hn. apply String.eqb_neq. congruence. Qed.

(** The request parseVaultRequest builds for a customer with a customerId. *)
Lemma parseVaultRequest_known_customer customer text cls props id :
    customer_field customer "vaultRequest" = Some text ->
    JSON_parse text = Some (VObj cls props) ->
    customer_field customer "customerId" = Some id ->
    id <> "" ->
    truthy (get (VObj cls props) "options") = false
    \/ (exists c options, get (VObj cls props) "options" = VObj c options) ->
    exists request,
      parseVaultRequest customer = Returned request
      /\ get request "customerId" = VStr id
      /\ get (get request "options") "failOnDuplicatePaymentMethod" = VBool true
      /\ (forall k,
            k <> "customerId" -> k <> "options" ->
            get request k = get (VObj cls props) k)
      /\ (forall k,
            k <> "failOnDuplicatePaymentMethod" ->
            get (get request "options") k
            = get (get (VObj cls props) "options") k).
Proof.
  intros Hvault Hparse Hid Hidtext Hoptions.
  destruct literal_keys as [Hco Hoc].
  unfold parseVaultRequest.
  rewrite Hvault, Hid, (populated_text Hidtext).
  unfold parse_or. rewrite Hparse.
  cbn [assign outcome_bind optional_string].
  rewrite get_assoc_set, Hco.
  destruct Hoptions as [Hfalsy|(c & options & Hobject)].
  - rewrite Hfalsy. cbn [negb assign outcome_bind].
    rewrite get_assoc_set, String.eqb_refl.
    cbn [obj assign outcome_bind assoc_set].
    eexists. split; [reflexivity|].
    rewrite !get_assoc_set, !String.eqb_refl, Hoc.
    split; [reflexivity|]. split; [reflexivity|]. split.
    + intros k Hk Hko. rewrite !get_assoc_set.
      now rewrite (@neq_eqb _ _ Hk), (@neq_eqb _ _ Hko).
    + intros k Hk.
      destruct (get (VObj cls props) "options"); try discriminate Hfalsy;
        cbn [get assoc_get]; now rewrite (@neq_eqb _ _ Hk).
  - rewrite Hobject. cbn [truthy negb outcome_bind].
    rewrite get_assoc_set, Hco, Hobject. cbn [assign outcome_bind].
    eexists. split; [reflexivity|].
    rewrite !get_assoc_set, !String.eqb_refl, Hoc.
    split; [reflexivity|].
    split; [now rewrite get_assoc_set, String.eqb_refl|]. split.
    + intros k Hk Hko. rewrite !get_assoc_set.
      now rewrite (@neq_eqb _ _ Hk), (@neq_eqb _ _ Hko).
    + intros k Hk. rewrite get_assoc_set. now rewrite (@neq_eqb _ _ Hk).
Qed.

(** X14.  For a customer with a customerId, a vaultRequest that parses to an
    object whose options are missing, falsy or an object becomes the request
    of createPaymentMethod with customerId set from the customer (replacing
    one given in the request), options.failOnDuplicatePaymentMethod set to
    true, and every other property, and every other option, as the request
    gave it. *)
Theorem vault_request_for_known_customer :
  forall customer text cls props id updateActions log,
    customer_field customer "vaultRequest" = Some text ->
    text <> "" ->
    JSON_parse text = Some (VObj cls props) ->
    customer_field customer "customerId" = Some id ->
    id <> "" ->
    truthy (get (VObj cls props) "options") = false
    \/ (exists c options, get (VObj cls props) "options" = VObj c options) ->
    exists request,
      parseVaultRequest customer = Returned request
      /\ fst (update_vault customer updateActions log)
         = (log ++ [CallCreatePaymentMethod request])%list
      /\ get request "customerId" = VStr id
      /\ get (get request "options") "failOnDuplicatePaymentMethod" = VBool true
      /\ (forall k,
            k <> "customerId" -> k <> "options" ->
            get request k = get (VObj cls props) k)
      /\ (forall k,
            k <> "failOnDuplicatePaymentMethod" ->
            get (get request "options") k
            = get (get (VObj cls props) "options") k).
Proof.
  intros customer text cls props id updateActions log
         Hvault Htext Hparse Hid Hidtext Hoptions.
  destruct (@parseVaultRequest_known_customer _ _ _ _ _ Hvault Hparse Hid Hidtext Hoptions)
    as (request & Hrequest & Hrest).
  exists request. split; [assumption|]. split; [|assumption].
  unfold update_vault.
  rewrite Hvault, Hid, (populated_text Htext), (populated_text Hidtext).
  cbn [negb]. unfold try_catch, bind, lift, ret, createPaymentMethod, call_gateway.
  rewrite Hrequest.
  destruct (gateway_reply log _) as [response|e]; [|reflexivity].
  now destruct (handleCustomerResponse "vault" response customer).
Qed.

End FurtherCustomerProperties.

(* ================================================================== *)
(** ** The further properties at concrete events *)
(* ================================================================== *)

Section FurtherConcrete.
Import Sample.

Lemma removeEmptyProperties_fixes_exactly_the_clean_witness :
  removeEmptyProperties (obj [ ("id", VStr "bt1"); ("tags", obj [ ("a", VUndefined) ]) ])
  = obj [ ("id", VStr "bt1"); ("tags", obj [ ("a", VUndefined) ]) ].
Proof.
  apply (proj2 (removeEmptyProperties_fixes_exactly_the_clean
                  (obj [ ("id", VStr "bt1"); ("tags", obj [ ("a", VUndefined) ]) ]))).
  reflexivity.
Defined.

Lemma findSuitableTransactionId_takes_the_last_of_the_type_witness :
  @findSuitableTransactionId runtime
    {| payment := Some Sample2.authorized_twice; transaction := None |}
    Authorization
  = Returned (VStr "bt-b").
Proof.
  apply (proj1 (@findSuitableTransactionId_takes_the_last_of_the_type runtime
                  {| payment := Some Sample2.authorized_twice; transaction := None |}
                  Authorization Sample2.authorized_twice eq_refl eq_refl)
               [ Sample2.authorization "t0" "bt-a"; charge ]
               (Sample2.authorization "t2" "bt-b") []).
  - reflexivity.
  - reflexivity.
  - intros u [].
Defined.

Lemma explicit_transactionId_is_used_witness :
  fst (@op_handler Sample2.runtime parts up OpRefund
         (event "refundRequest" Sample2.id_request_text (Some charge)) [])
  = [ CallRefund (VStr "bt9") (VStr "2.50") ].
Proof.
  apply (@explicit_transactionId_is_used Sample2.runtime parts up OpRefund
           (event "refundRequest" Sample2.id_request_text (Some charge)) []
           Sample2.id_request_text PlainObject
           [ ("transactionId", VStr "bt9"); ("amount", VStr "2.50") ] "bt9").
  - reflexivity.
  - discriminate.
  - reflexivity.
  - reflexivity.
Defined.

Lemma null_request_fails_before_the_gateway_witness :
  @op_handler Sample2.runtime parts up OpVoid (event "voidRequest" "null" None) []
  = ([],
     Returned (error_actions VUndefined "void"
                             (TypeError_message VNull "transactionId")))
  /\ @handleTransactionSaleRequest Sample2.runtime parts up
       (Some (payment_with "transactionSaleRequest" "null")) []
     = ([],
        Returned (error_actions VUndefined "transactionSale"
                                (TypeError_message VNull "customer"))).
Proof.
  assert (Hnull : "null" <> "") by discriminate.
  destruct (@null_request_fails_before_the_gateway Sample2.runtime parts up
              "null" Hnull eq_refl) as [Hop Hsale].
  split.
  - apply (Hop OpVoid (event "voidRequest" "null" None) []). reflexivity.
  - apply (Hsale (payment_with "transactionSaleRequest" "null") money []);
      reflexivity.
Defined.

Lemma transaction_handler_success_actions_witness :
  exists updateActions,
    @op_handler runtime parts up OpSubmitForSettlement
      {| payment :=
           Some {| payment_custom :=
                     Some {| fields := [ ("submitForSettlementRequest", "{}") ] |};
                   amountPlanned := Some money;
                   transactions := transactions Sample2.authorized_twice;
                   interfaceId := None |};
         transaction := None |} []
    = ([ CallSubmitForSettlement (VStr "bt-b") VUndefined ], Returned updateActions)
    /\ List.length updateActions = 8%nat.
Proof.
  eexists. split.
  - apply (@transaction_handler_success_actions runtime parts up
             OpSubmitForSettlement _ []
             (obj [ ("transactionId", VStr "bt-b") ]) settled);
      reflexivity.
  - reflexivity.
Defined.

Lemma empty_gateway_response_gives_the_error_actions_witness :
  @op_handler runtime parts Sample2.silent OpRefund
    (event "refundRequest" "{}" None) []
  = ([ CallRefund (VStr "bt0") VUndefined ],
     Returned (error_actions VUndefined "refund" (TypeError_message VNull "amount")))
  /\ exists request,
       @handleTransactionSaleRequest runtime parts Sample2.silent
         (Some (payment_with "transactionSaleRequest" not_json)) []
       = ([ CallTransactionSale request ],
          Returned (error_actions VUndefined "transactionSale"
                                  (TypeError_message VNull "status"))).
Proof.
  destruct (@empty_gateway_response_gives_the_error_actions
              runtime parts Sample2.silent) as [Hop Hsale].
  split.
  - apply (Hop OpRefund (event "refundRequest" "{}" None) []
               (obj [ ("transactionId", VStr "bt0") ]) VNull);
      reflexivity.
  - eexists.
    apply (Hsale (payment_with "transactionSaleRequest" not_json) []
                 (obj [ ("amount", VStr "10");
                        ("merchantAccountId", VUndefined);
                        ("channel", VStr "commercetools");
                        ("options",
                         obj [ ("submitForSettlement", VBool true);
                               ("storeInVaultOnSuccess", VBool false) ]);
                        ("paymentMethodNonce", VStr not_json) ])
                 VNull);
      reflexivity.
Defined.

Lemma transaction_sale_success_actions_witness :
  exists log' updateActions,
    @handleTransactionSaleRequest runtime parts up
      (Some (payment_with "transactionSaleRequest" not_json)) []
    = (log', Returned updateActions)
    /\ List.length updateActions = 9%nat
    /\ In (obj [ ("action", VStr "setInterfaceId"); ("interfaceId", VStr "bt1") ])
          updateActions.
Proof.
  do 2 eexists. split.
  - apply (@transaction_sale_success_actions runtime parts up
             (payment_with "transactionSaleRequest" not_json) []
             (obj [ ("amount", VStr "10");
                    ("merchantAccountId", VUndefined);
                    ("channel", VStr "commercetools");
                    ("options",
                     obj [ ("submitForSettlement", VBool true);
                           ("storeInVaultOnSuccess", VBool false) ]);
                    ("paymentMethodNonce", VStr not_json) ])
             settled);
      reflexivity.
  - split; [reflexivity|]. do 5 right. left. reflexivity.
Defined.

Lemma transaction_sale_request_defaults_witness :
  exists request,
    @parseTransactionSaleRequest Sample2.runtime
      (payment_with "transactionSaleRequest" "{}")
    = Returned request
    /\ get request "options"
       = obj [ ("submitForSettlement", VBool false);
               ("storeInVaultOnSuccess", VBool false) ]
    /\ get request "channel" = VStr "commercetools"
    /\ get request "merchantAccountId" = VStr "merchant-eur".
Proof.
  destruct (@transaction_sale_request_defaults Sample2.runtime
              (payment_with "transactionSaleRequest" "{}") money "{}"
              eq_refl ltac:(discriminate) eq_refl eq_refl)
    as (request & Hparse & Hoptions & _ & Hchannel & Hmerchant).
  exists request. split; [exact Hparse|].
  split; [exact (Hoptions eq_refl)|].
  split; [exact (Hchannel eq_refl) | exact (Hmerchant eq_refl)].
Defined.

Lemma client_token_actions_witness :
  exists updateActions,
    @handleGetClientTokenRequest runtime parts up
      (Some (payment_with "getClientTokenRequest" "{}")) []
    = ([ CallGetClientToken (obj [ ("merchantAccountId", VUndefined) ]) ],
       Returned updateActions)
    /\ List.length updateActions = 4%nat.
Proof.
  eexists. split.
  - apply (proj1 (@client_token_actions runtime parts up
                    (Some (payment_with "getClientTokenRequest" "{}")) []
                    "{}" (obj []) eq_refl ltac:(discriminate) eq_refl)
                 settled).
    reflexivity.
  - reflexivity.
Defined.

Lemma payment_method_text_witness :
  (exists method,
      @updatePaymentFields runtime Sample2.card_response
      = Returned
          [ obj [ ("action", VStr "setStatusInterfaceCode");
                  ("interfaceCode", VStr "authorized") ];
            obj [ ("action", VStr "setStatusInterfaceText");
                  ("interfaceText", VStr "authorized") ];
            obj [ ("action", VStr "setMethodInfoMethod"); ("method", method) ] ]
      /\ method = VStr "credit_card (undefined undefined)")
  /\ @updatePaymentFields runtime settled
     = Returned
         [ obj [ ("action", VStr "setStatusInterfaceCode");
                 ("interfaceCode", VStr "settled") ];
           obj [ ("action", VStr "setStatusInterfaceText");
                 ("interfaceText", VStr "settled") ];
           obj [ ("action", VStr "setMethodInfoMethod");
                 ("method", VStr "paypal_account") ] ].
Proof.
  split.
  - eexists. split.
    + apply (proj1 (@payment_method_text runtime Sample2.card_response eq_refl)).
      reflexivity.
    + reflexivity.
  - apply (proj2 (@payment_method_text runtime settled eq_refl)
                 "paypal_account" "paypalAccount" "payerEmail").
    + left. reflexivity.
    + reflexivity.
    + reflexivity.
Defined.

Lemma update_resolves_with_200_or_throws_400_witness :
  (exists message,
      @update runtime parts up {| obj_ := None |} []
      = ([], Threw (CustomError 400 message)))
  /\ (exists log' updateActions,
         @update runtime parts up
           {| obj_ := Some (customer_with [ ("findRequest", "{}") ]) |} []
         = (log', Returned (Some {| statusCode := 200; actions := updateActions |}))).
Proof.
  split.
  - eexists.
    apply (proj1 (@update_resolves_with_200_or_throws_400 runtime parts up
                    {| obj_ := None |} [])).
    reflexivity.
  - apply (proj2 (proj2 (@update_resolves_with_200_or_throws_400 runtime parts up
                           {| obj_ := Some (customer_with [ ("findRequest", "{}") ]) |}
                           []))
                 (customer_with [ ("findRequest", "{}") ]) eq_refl).
    right. exists "{}", (obj []). split; reflexivity.
Defined.

Lemma create_without_id_makes_no_call_witness :
  @update_create runtime parts up
    {| customer_id := "";
       customer_custom := Some {| fields := [ ("createRequest", "{}") ] |} |}
    [ set_field_action VUndefined "findRequest" VNull ] []
  = ([], Returned (error_actions VUndefined "create" "field customerId is missing")).
Proof.
  apply (proj2 (@create_without_id_makes_no_call runtime parts up
                  {| customer_id := "";
                     customer_custom :=
                       Some {| fields := [ ("createRequest", "{}") ] |} |}
                  "{}" [ set_field_action VUndefined "findRequest" VNull ] []
                  eq_refl ltac:(discriminate))
               (obj [ ("id", VStr "") ]));
    reflexivity.
Defined.

Lemma vault_request_for_known_customer_witness :
  exists request,
    fst (@update_vault Sample2.runtime parts up
           (customer_with [ ("vaultRequest", Sample2.vault_request_text);
                            ("customerId", "c1") ]) [] [])
    = [ CallCreatePaymentMethod request ]
    /\ get request "customerId" = VStr "c1"
    /\ get request "paymentMethodNonce" = VStr "n1"
    /\ get (get request "options") "failOnDuplicatePaymentMethod" = VBool true
    /\ get (get request "options") "verifyCard" = VBool true.
Proof.
  destruct (@vault_request_for_known_customer Sample2.runtime parts up
              (customer_with [ ("vaultRequest", Sample2.vault_request_text);
                               ("customerId", "c1") ])
              Sample2.vault_request_text PlainObject
              [ ("paymentMethodNonce", VStr "n1");
                ("options", obj [ ("verifyCard", VBool true) ]) ]
              "c1" [] []
              eq_refl ltac:(discriminate) eq_refl eq_refl ltac:(discriminate)
              (or_intror (ex_intro _ PlainObject
                            (ex_intro _ [ ("verifyCard", VBool true) ] eq_refl))))
    as (request & _ & Hcall & Hid & Hfail & Hkeep & Hoptions).
  exists request. split; [exact Hcall|]. split; [exact Hid|].
  split.
  - rewrite (Hkeep "paymentMethodNonce"); [reflexivity | discriminate | discriminate].
  - split; [exact Hfail|].
    rewrite (Hoptions "verifyCard"); [reflexivity | discriminate].
Defined.

End FurtherConcrete.

(* ================================================================== *)
(** ** What the handlers never do *)
(* ================================================================== *)

Section NeverProperties.
Context `{JsRuntime} `{ConnectorParts} `{Braintree}.

(** Closes a goal stating that a handler resolved, with or without a call. *)
Ltac resolved :=
  first [ eexists; left; reflexivity
        | eexists; right; eexists; reflexivity ].

Lemma transactionOperation_resolves
      requestField requestName transactionType addedType gatewayCall pwt log :
  exists updateActions,
    transactionOperation requestField requestName transactionType addedType
      (fun request => call_gateway (gatewayCall request)) pwt log
    = (log, Returned updateActions)
    \/ exists call,
        transactionOperation requestField requestName transactionType addedType
          (fun request => call_gateway (gatewayCall request)) pwt log
        = ((log ++ [call])%list, Returned updateActions).
Proof.
  destruct (populated (payment_field (payment pwt) requestField)) eqn:Hfield.
  - rewrite transactionOperation_run by assumption.
    destruct (parseRequest pwt requestField transactionType) as [request|e];
      [|resolved].
    unfold call_gateway.
    destruct (gateway_reply log _) as [response|e]; [|resolved].
    destruct (addTransaction _ _ _); [|resolved].
    destruct (updatePaymentFields _); resolved.
  - unfold transactionOperation. rewrite Hfield. unfold ret. resolved.
Qed.

(** X16.  refund, submitForSettlement, voidTransaction and
    handleTransactionSaleRequest never reject: for every event they resolve
    with a list of actions, after at most one gateway call.
    handleGetClientTokenRequest resolves in the same way except for a
    populated getClientTokenRequest that is not JSON, for which it rejects
    with the SyntaxError without calling the gateway. *)
Theorem payment_handlers_resolve_after_at_most_one_call :
  (forall op pwt log,
      exists updateActions,
        op_handler op pwt log = (log, Returned updateActions)
        \/ exists call,
            op_handler op pwt log = ((log ++ [call])%list, Returned updateActions))
  /\ (forall payment log,
        exists updateActions,
          handleTransactionSaleRequest payment log = (log, Returned updateActions)
          \/ exists call,
              handleTransactionSaleRequest payment log
              = ((log ++ [call])%list, Returned updateActions))
  /\ (forall payment log,
        (exists updateActions,
            handleGetClientTokenRequest payment log = (log, Returned updateActions)
            \/ exists call,
                handleGetClientTokenRequest payment log
                = ((log ++ [call])%list, Returned updateActions))
        \/ (exists text,
               payment_field payment "getClientTokenRequest" = Some text
               /\ text <> ""
               /\ JSON_parse text = None
               /\ handleGetClientTokenRequest payment log
                  = (log, Threw (RuntimeError (SyntaxError_message text))))).
Proof.
  split; [|split].
  - intros op pwt log. rewrite op_handler_unfold.
    apply transactionOperation_resolves.
  - intros [payment|] log; [|eexists; left; reflexivity].
    destruct (populated (custom_field (payment_custom payment)
                                      "transactionSaleRequest")) eqn:Hfield.
    + rewrite handleTransactionSaleRequest_run by assumption.
      destruct (parseTransactionSaleRequest payment); [|resolved]. cbv zeta.
      destruct (gateway_reply log _); [|resolved].
      destruct (addTransaction _ _ _); [|resolved].
      destruct (updatePaymentFields _); resolved.
    + unfold handleTransactionSaleRequest. rewrite Hfield. unfold ret. resolved.
  - intros payment log.
    destruct (payment_field payment "getClientTokenRequest") as [text|] eqn:Hfield.
    + destruct (text =? "") eqn:Htext.
      * left. unfold handleGetClientTokenRequest. rewrite Hfield, Htext.
        unfold ret. resolved.
      * apply String.eqb_neq in Htext.
        destruct (JSON_parse text) as [request|] eqn:Hparse.
        -- left. rewrite (handleGetClientTokenRequest_run _ _ Hfield Htext Hparse).
           destruct (gateway_reply log _); resolved.
        -- right. exists text. repeat split; try assumption.
           unfold handleGetClientTokenRequest. rewrite Hfield.
           apply String.eqb_neq in Htext. now rewrite Htext, Hparse.
    + left. unfold handleGetClientTokenRequest. rewrite Hfield. unfold ret. resolved.
Qed.

(** X15.  Each of the three blocks of update treats the actions gathered so
    far in one of two ways that do not depend on them: it appends its own
    actions (none when its field is not populated), or, when its gateway call
    or its preparation fails, it returns its two error actions in their
    place.  The create and vault blocks never throw. *)
Theorem update_blocks_append_or_replace :
  forall customer log,
    (exists log',
        (exists added,
            forall updateActions,
              update_create customer updateActions log
              = (log', Returned (updateActions ++ added)%list))
        \/ (exists e,
               forall updateActions,
                 update_create customer updateActions log
                 = (log', Returned (error_actions VUndefined "create"
                                                  (errorMessage e)))))
    /\ (exists log',
          (exists added,
              forall updateActions,
                update_vault customer updateActions log
                = (log', Returned (updateActions ++ added)%list))
          \/ (exists e,
                 forall updateActions,
                   update_vault customer updateActions log
                   = (log', Returned (error_actions VUndefined "vault"
                                                    (errorMessage e)))))
    /\ (forall text request,
          customer_field customer "findRequest" = Some text ->
          JSON_parse text = Some request ->
          exists log',
            (exists added,
                forall updateActions,
                  update_find customer updateActions log
                  = (log', Returned (updateActions ++ added)%list))
            \/ (exists e,
                   forall updateActions,
                     update_find customer updateActions log
                     = (log', Returned (error_actions VUndefined "find"
                                                      (errorMessage e))))).
Proof.
  intros customer log. split; [|split].
  - unfold update_create.
    destruct (customer_field customer "createRequest") as [text|];
      [|exists log; left; exists []; intros; unfold ret; now rewrite app_nil_r].
    destruct (text =? "");
      [exists log; left; exists []; intros; unfold ret; now rewrite app_nil_r|].
    unfold try_catch, bind, lift, ret, throw, createCustomer, call_gateway.
    destruct (mapCommercetoolsCustomerToBraintreeCustomerCreateRequest _ _)
      as [request|e]; [|exists log; right; exists e; reflexivity].
    destruct (member request "id") as [id|e];
      [|exists log; right; exists e; reflexivity].
    destruct (negb (truthy id));
      [exists log; right;
       exists (CustomError 400 "field customerId is missing"); reflexivity|].
    destruct (gateway_reply log _) as [response|e];
      [|eexists; right; exists e; reflexivity].
    destruct (handleCustomerResponse "create" response customer) as [added|e];
      [eexists; left; exists added; reflexivity
      |eexists; right; exists e; reflexivity].
  - unfold update_vault.
    destruct (negb (populated (customer_field customer "vaultRequest")));
      [exists log; left; exists []; intros; unfold ret; now rewrite app_nil_r|].
    unfold try_catch, bind, lift, ret, createCustomer, createPaymentMethod,
      call_gateway.
    destruct (parseVaultRequest customer) as [request|e];
      [|exists log; right; exists e; reflexivity].
    destruct (negb (populated (customer_field customer "customerId")));
      (destruct (gateway_reply log _) as [response|e];
       [|eexists; right; exists e; reflexivity]);
      (destruct (handleCustomerResponse "vault" response customer) as [added|e];
       [eexists; left; exists added; reflexivity
       |eexists; right; exists e; reflexivity]).
  - intros text request Hfield Hparse. unfold update_find. rewrite Hfield.
    destruct (text =? "");
      [exists log; left; exists []; intros; unfold ret; now rewrite app_nil_r|].
    rewrite Hparse.
    unfold try_catch, bind, lift, ret, findCustomer, call_gateway.
    destruct (gateway_reply log _) as [response|e];
      [|eexists; right; exists e; reflexivity].
    destruct (handleCustomerResponse "find" response customer) as [added|e];
      [eexists; left; exists added; reflexivity
      |eexists; right; exists e; reflexivity].
Qed.

End NeverProperties.

Section NeverConcrete.
Import Sample.

Lemma update_blocks_append_or_replace_witness :
  exists log',
    (exists added,
        forall updateActions,
          @update_find runtime parts up
            (customer_with [ ("findRequest", "{}") ]) updateActions []
          = (log', Returned (updateActions ++ added)%list))
    \/ (exists e,
           forall updateActions,
             @update_find runtime parts up
               (customer_with [ ("findRequest", "{}") ]) updateActions []
             = (log', Returned (error_actions VUndefined "find" (errorMessage e)))).
Proof.
  apply (proj2 (proj2 (@update_blocks_append_or_replace runtime parts up
                         (customer_with [ ("findRequest", "{}") ]) []))
               "{}" (obj [])); reflexivity.
Defined.

End NeverConcrete.
